(** * verify_rate_limit.py: the rate-limit verification harness

    A shallow embedding of [run_test] and of the [__main__] block of
    [src/verify_rate_limit.py].

    The harness talks to the outside world (file system, three child
    processes, the wall clock, the kernel's entropy pool).  The world's side
    of every such conversation is a script, [Env]: the k-th call of
    [wrapper.stdout.readline()] returns [readline_results env k], the k-th
    call of [time.time()] returns [time_results env k], and so on.  The
    harness's side is the state [St]: the file system, the table of spawned
    processes, what was printed, and how many calls of each kind were made.

    Python values are modelled as follows (CPython 3.11 on a 64-bit POSIX
    system, the locale's encoding being UTF-8).
    - [int] is [Z]; [%] is [Z.modulo] (both take the sign of the divisor).
    - [float] is IEEE-754 binary64, [PrimFloat.float]; an [int] operand of a
      float operation is converted first ([float_of_int]).
    - [bytes] is [list byte].  The [str] read from a text file is the list
      of its code points: reading decodes UTF-8 ([decode_utf8], which fails
      as the codec does) and translates the newlines, [str.strip] removes
      Unicode white space, and writing encodes ([encode_utf8]).  Every
      other [str] (arguments, lines of the client's output, messages) is a
      [string].
    - [os.urandom(n)] takes [n] as a [Py_ssize_t] and builds a [bytes]
      object, which bounds [n] ([urandom]).
    - the f-string of line 100 converts [expected_duration] to decimal
      digits, of which there may be 4300 at most ([report_took]).
    - a path such as [f"{test_dir}/room_files"] is the list of its
      components, [[test_dir; "room_files"]], relative to the working
      directory.
    - the [while True] loop takes fuel; [OutOfFuel] means that the loop is
      still running.

    Not modelled: [time.sleep] (the clock is part of the script), permission
    and disk-space errors, the exhaustion of memory ([MemoryError]), the
    failure of [Popen] to find a binary, symbolic links, what the child
    processes write to the file system, a [wrapper.stdout.read()] that never
    returns, the float formatting of the two report lines (they are kept as
    structured messages), and the limits on the length of a file name.  The
    limit of 4300 digits is not modelled for [file_size_kb] either: such a
    size fails at line 10 in the code, and here at [os.urandom] at the
    latest. *)

From Stdlib Require Import ZArith Strings.String Strings.Ascii Strings.Byte.
From Stdlib Require Import Floats.PrimFloat Floats.SpecFloat Floats.FloatOps
  Floats.FloatAxioms.
From Stdlib Require Import ZifyBool.
From stdpp Require Import base option list gmap strings pretty.

Set Warnings "-inexact-float".

Local Open Scope string_scope.
Local Open Scope Z_scope.
Local Open Scope list_scope.

(** ** Python values *)

Inductive exn : Type :=
  | OSError            (* and its subclasses: FileNotFoundError, ... *)
  | ValueError
  | UnicodeError       (* UnicodeDecodeError, UnicodeEncodeError *)
  | OverflowError
  | ZeroDivisionError.

Definition nl : string := String "010" "".

(** A [str] that passes through a text file: its code points. *)
Abbreviation text := (list N).

(** [str.isspace], one code point at a time. *)
Definition isspace (c : N) : bool :=
  ((9 <=? c) && (c <=? 13) || (28 <=? c) && (c <=? 32)
   || (c =? 0x85) || (c =? 0xA0) || (c =? 0x1680)
   || (0x2000 <=? c) && (c <=? 0x200A)
   || (c =? 0x2028) || (c =? 0x2029) || (c =? 0x202F) || (c =? 0x205F)
   || (c =? 0x3000))%N%bool.

Fixpoint lstrip (s : text) : text :=
  match s with
  | c :: s' => if isspace c then lstrip s' else s
  | [] => []
  end.

Fixpoint rstrip (s : text) : text :=
  match s with
  | c :: s' =>
      match rstrip s' with
      | [] => if isspace c then [] else [c]
      | r => c :: r
      end
  | [] => []
  end.

(** [s.strip()] *)
Definition strip (s : text) : text := rstrip (lstrip s).

(** [needle in hay] for two strings. *)
Fixpoint contains (needle hay : string) : bool :=
  if String.prefix needle hay then true
  else match hay with
       | String _ hay' => contains needle hay'
       | EmptyString => false
       end.

(** Text mode reads with universal newlines: CR LF and a lone CR become LF. *)
Fixpoint universal_newlines (s : text) : text :=
  match s with
  | [] => []
  | c :: s' =>
      if (c =? 13)%N then
        match s' with
        | c' :: s'' =>
            if (c' =? 10)%N then 10%N :: universal_newlines s''
            else 10%N :: universal_newlines s'
        | [] => [10%N]
        end
      else c :: universal_newlines s'
  end.

(** The UTF-8 codec, strict: no overlong form, no surrogate, nothing above
    U+10FFFF, no sequence cut short. *)
Definition continuation (b : N) : bool := ((0x80 <=? b) && (b <=? 0xBF))%N.

Definition second_of_3 (a b : N) : bool :=
  (if a =? 0xE0 then (0xA0 <=? b) && (b <=? 0xBF)
   else if a =? 0xED then (0x80 <=? b) && (b <=? 0x9F)
   else continuation b)%N.

Definition second_of_4 (a b : N) : bool :=
  (if a =? 0xF0 then (0x90 <=? b) && (b <=? 0xBF)
   else if a =? 0xF4 then (0x80 <=? b) && (b <=? 0x8F)
   else continuation b)%N.

(** [bs.decode("utf-8")]: [None] is [UnicodeDecodeError]. *)
Fixpoint decode_utf8 (bs : list byte) : option text :=
  match bs with
  | [] => Some []
  | b0 :: r0 =>
      let a := Byte.to_N b0 in
      if (a <? 0x80)%N then cons a <$> decode_utf8 r0
      else if ((0xC2 <=? a) && (a <=? 0xDF))%N then
        match r0 with
        | b1 :: r1 =>
            let b := Byte.to_N b1 in
            if continuation b
            then cons ((a - 0xC0) * 64 + (b - 0x80))%N <$> decode_utf8 r1
            else None
        | _ => None
        end
      else if ((0xE0 <=? a) && (a <=? 0xEF))%N then
        match r0 with
        | b1 :: b2 :: r2 =>
            let b := Byte.to_N b1 in
            let c := Byte.to_N b2 in
            if second_of_3 a b && continuation c
            then cons ((a - 0xE0) * 4096 + (b - 0x80) * 64 + (c - 0x80))%N
                   <$> decode_utf8 r2
            else None
        | _ => None
        end
      else if ((0xF0 <=? a) && (a <=? 0xF4))%N then
        match r0 with
        | b1 :: b2 :: b3 :: r3 =>
            let b := Byte.to_N b1 in
            let c := Byte.to_N b2 in
            let d := Byte.to_N b3 in
            if second_of_4 a b && continuation c && continuation d
            then cons ((a - 0xF0) * 262144 + (b - 0x80) * 4096
                       + (c - 0x80) * 64 + (d - 0x80))%N
                   <$> decode_utf8 r3
            else None
        | _ => None
        end
      else None
  end.

Definition byte_of_N (n : N) : byte := default x00 (Byte.of_N n).

Definition encode_char (c : N) : option (list byte) :=
  (if c <? 0x80 then Some [byte_of_N c]
   else if c <? 0x800 then
     Some [byte_of_N (0xC0 + c / 64); byte_of_N (0x80 + c mod 64)]
   else if c <? 0x10000 then
     if (0xD800 <=? c) && (c <=? 0xDFFF) then None
     else Some [byte_of_N (0xE0 + c / 4096); byte_of_N (0x80 + c / 64 mod 64);
                byte_of_N (0x80 + c mod 64)]
   else if c <? 0x110000 then
     Some [byte_of_N (0xF0 + c / 262144); byte_of_N (0x80 + c / 4096 mod 64);
           byte_of_N (0x80 + c / 64 mod 64); byte_of_N (0x80 + c mod 64)]
   else None)%N.

(** [s.encode("utf-8")]: [None] is [UnicodeEncodeError]. *)
Fixpoint encode_utf8 (s : text) : option (list byte) :=
  match s with
  | [] => Some []
  | c :: s' =>
      match encode_char c, encode_utf8 s' with
      | Some bs, Some r => Some (bs ++ r)
      | _, _ => None
      end
  end.

(** [str(z)] inside an f-string: the digits of [z] may not be more than
    [sys.get_int_max_str_digits()]. *)
Definition max_str_digits : Z := 4300.

Definition fits_str (z : Z) : bool := Z.abs z <? 10 ^ max_str_digits.

(** The conversion of an [int] operand to [float]: round to nearest even,
    [OverflowError] when the result is not finite. *)
Definition float_of_int (z : Z) : option float :=
  let f := SF2Prim (binary_normalize prec emax z 0 false) in
  if PrimFloat.is_infinity f then None else Some f.

(** [a >= b] on floats. *)
Definition float_ge (a b : float) : bool := PrimFloat.leb b a.

(** [b == 0.0], the test that guards float division. *)
Definition float_is_zero (b : float) : bool := PrimFloat.eqb b PrimFloat.zero.

(** Neither an infinity nor a NaN: what [time.time()] returns. *)
Definition finite (x : float) : bool :=
  match Prim2SF x with
  | S754_zero _ | S754_finite _ _ _ => true
  | _ => false
  end.

(** ** The file system *)

Abbreviation path := (list string).

Inductive node : Type :=
  | Dir
  | File (data : list byte).

(** ** The world's script and the harness's state *)

Record Env : Type := {
  entropy : nat -> byte;                (* the bytes os.urandom hands out *)
  poll_results : nat -> option Z;       (* wrapper.poll(): None = still alive *)
  write_results : nat -> bool;          (* wrapper.stdin write+flush: true = BrokenPipeError *)
  read_results : nat -> string;         (* wrapper.stdout.read() *)
  readline_results : nat -> string;     (* wrapper.stdout.readline() *)
  time_results : nat -> float           (* time.time() *)
}.

Record proc : Type := {
  argv : list string;
  killed : bool
}.

Inductive msg : Type :=
  | Text (s : string)                   (* print(s) *)
  | Raw (s : string)                    (* sys.stdout.write(s); flush *)
  | Received (line : string)            (* print(f"DEBUG: RECEIVED: {repr(line)}") *)
  | Took (actual : float) (expected : Z) (* the "Transfer took ..." line *)
  | Speed (speed_kb_s : float).         (* the "Average speed: ..." line *)

Record St : Type := {
  fs : gmap path node;
  procs : list proc;                    (* a handle is an index in this table *)
  out : list msg;                       (* standard output, oldest first *)
  k_entropy : nat;
  k_poll : nat;
  k_write : nat;
  k_read : nat;
  k_readline : nat;
  k_time : nat
}.

Definition set_fs (f : gmap path node -> gmap path node) (s : St) : St :=
  {| fs := f (fs s); procs := procs s; out := out s; k_entropy := k_entropy s;
     k_poll := k_poll s; k_write := k_write s; k_read := k_read s;
     k_readline := k_readline s; k_time := k_time s |}.

Definition set_procs (f : list proc -> list proc) (s : St) : St :=
  {| fs := fs s; procs := f (procs s); out := out s; k_entropy := k_entropy s;
     k_poll := k_poll s; k_write := k_write s; k_read := k_read s;
     k_readline := k_readline s; k_time := k_time s |}.

Definition set_out (f : list msg -> list msg) (s : St) : St :=
  {| fs := fs s; procs := procs s; out := f (out s); k_entropy := k_entropy s;
     k_poll := k_poll s; k_write := k_write s; k_read := k_read s;
     k_readline := k_readline s; k_time := k_time s |}.

(** ** The monad: state, exceptions, fuel *)

Inductive res (A : Type) : Type :=
  | Done (a : A) (s : St)
  | Raise (e : exn) (s : St)
  | OutOfFuel.
Arguments Done {A} a s.
Arguments Raise {A} e s.
Arguments OutOfFuel {A}.

Definition M (A : Type) : Type := St -> res A.

#[export] Instance M_ret : MRet M := fun A a s => Done a s.

#[export] Instance M_bind : MBind M := fun A B k m s =>
  match m s with
  | Done a s' => k a s'
  | Raise e s' => Raise e s'
  | OutOfFuel => OutOfFuel
  end.

Definition raise {A : Type} (e : exn) : M A := fun s => Raise e s.

Definition gets {A : Type} (f : St -> A) : M A := fun s => Done (f s) s.

Definition modify (f : St -> St) : M unit := fun s => Done tt (f s).

(** ** What the harness can do to the world *)

Definition say (m : msg) (s : St) : St := set_out (fun o => o ++ [m]) s.

Definition print (m : msg) : M unit := modify (say m).

(** One more call of each kind. *)
Definition tick_entropy (n : nat) (s : St) : St :=
  {| fs := fs s; procs := procs s; out := out s;
     k_entropy := (k_entropy s + n)%nat;
     k_poll := k_poll s; k_write := k_write s; k_read := k_read s;
     k_readline := k_readline s; k_time := k_time s |}.

Definition tick_poll (s : St) : St :=
  {| fs := fs s; procs := procs s; out := out s; k_entropy := k_entropy s;
     k_poll := S (k_poll s);
     k_write := k_write s; k_read := k_read s;
     k_readline := k_readline s; k_time := k_time s |}.

Definition tick_write (s : St) : St :=
  {| fs := fs s; procs := procs s; out := out s; k_entropy := k_entropy s;
     k_poll := k_poll s;
     k_write := S (k_write s);
     k_read := k_read s; k_readline := k_readline s; k_time := k_time s |}.

Definition tick_read (s : St) : St :=
  {| fs := fs s; procs := procs s; out := out s; k_entropy := k_entropy s;
     k_poll := k_poll s; k_write := k_write s;
     k_read := S (k_read s);
     k_readline := k_readline s; k_time := k_time s |}.

Definition tick_readline (s : St) : St :=
  {| fs := fs s; procs := procs s; out := out s; k_entropy := k_entropy s;
     k_poll := k_poll s; k_write := k_write s; k_read := k_read s;
     k_readline := S (k_readline s);
     k_time := k_time s |}.

Definition tick_time (s : St) : St :=
  {| fs := fs s; procs := procs s; out := out s; k_entropy := k_entropy s;
     k_poll := k_poll s; k_write := k_write s; k_read := k_read s;
     k_readline := k_readline s;
     k_time := S (k_time s) |}.

(** [os.urandom(n)]: [n] must fit a [Py_ssize_t], must not be negative, and
    a [bytes] object of [n] bytes, 33 more with its header, must again have a
    size that fits. *)
Definition urandom (env : Env) (n : Z) : M (list byte) := fun s =>
  if (n <? - 2 ^ 63) || (2 ^ 63 - 34 <? n) then Raise OverflowError s
  else if n <? 0 then Raise ValueError s
  else Done (map (entropy env) (seq (k_entropy s) (Z.to_nat n)))
            (tick_entropy (Z.to_nat n) s).

(** [wrapper.poll()] *)
Definition poll (env : Env) : M (option Z) := fun s =>
  Done (poll_results env (k_poll s)) (tick_poll s).

(** [wrapper.stdin.write(line); wrapper.stdin.flush()]: [true] when either
    raised [BrokenPipeError]. *)
Definition stdin_write (env : Env) (line : string) : M bool := fun s =>
  Done (write_results env (k_write s)) (tick_write s).

(** [wrapper.stdout.read()] *)
Definition stdout_read (env : Env) : M string := fun s =>
  Done (read_results env (k_read s)) (tick_read s).

(** [wrapper.stdout.readline()] *)
Definition readline (env : Env) : M string := fun s =>
  Done (readline_results env (k_readline s)) (tick_readline s).

(** [time.time()] *)
Definition time_time (env : Env) : M float := fun s =>
  Done (time_results env (k_time s)) (tick_time s).

(** [subprocess.Popen(args, ...)]: the new process's handle. *)
Definition Popen (args : list string) : M nat := fun s =>
  Done (length (procs s))
       (set_procs (fun ps => ps ++ [{| argv := args; killed := false |}]) s).

(** [p.kill()] *)
Definition mark_killed (h : nat) (s : St) : St :=
  set_procs (alter (fun p => {| argv := argv p; killed := true |}) h) s.

Definition kill (h : nat) : M unit := modify (mark_killed h).

(** [os.path.exists(p)] *)
Definition os_path_exists (p : path) : M bool :=
  gets (fun s => match fs s !! p with Some _ => true | None => false end).

(** [shutil.rmtree(p)]: [p] must be a directory; it goes with all below it. *)
Definition rmtree (p : path) : M unit := fun s =>
  match fs s !! p with
  | Some Dir =>
      Done tt (set_fs (filter (fun kv => ~ p `prefix_of` kv.1)) s)
  | _ => Raise OSError s
  end.

(** One directory of [os.makedirs(..., exist_ok=True)]. *)
Definition mkdir_exist_ok (p : path) : M unit := fun s =>
  match fs s !! p with
  | Some Dir => Done tt s
  | Some (File _) => Raise OSError s
  | None => Done tt (set_fs (insert p Dir) s)
  end.

Fixpoint makedirs_from (head rest : path) : M unit :=
  match rest with
  | [] => mret tt
  | c :: rest' => mkdir_exist_ok (head ++ [c]);; makedirs_from (head ++ [c]) rest'
  end.

(** [os.makedirs(p, exist_ok=True)] *)
Definition makedirs (p : path) : M unit := makedirs_from [] p.

(** [open(p, "w")] and [open(p, "wb")]: the directory of [p] must exist;
    the file is created, or emptied. *)
Definition open_w (p : path) : M unit := fun s =>
  let dir_ok :=
    match removelast p with
    | [] => true
    | d => match fs s !! d with Some Dir => true | _ => false end
    end in
  match dir_ok, fs s !! p with
  | true, (None | Some (File _)) => Done tt (set_fs (insert p (File [])) s)
  | _, _ => Raise OSError s
  end.

(** [f.write(data)] on a file open for writing. *)
Definition f_write (p : path) (data : list byte) : M unit :=
  modify (set_fs (alter (fun n => match n with
                                  | File d => File (d ++ data)
                                  | Dir => Dir
                                  end) p)).

(** [f.write(s)] on a text file open for writing. *)
Definition f_write_text (p : path) (s : text) : M unit :=
  match encode_utf8 s with
  | Some data => f_write p data
  | None => raise UnicodeError
  end.

(** [open(p, "r").read()] *)
Definition read_text (p : path) : M text := fun s =>
  match fs s !! p with
  | Some (File d) =>
      match decode_utf8 d with
      | Some t => Done (universal_newlines t) s
      | None => Raise UnicodeError s
      end
  | _ => Raise OSError s
  end.

(** ** run_test, lines 13-27: the fixture *)

Definition test_dir (file_size_kb : Z) : string :=
  "test_env_" +:+ pretty file_size_kb.

Definition payload_path (file_size_kb : Z) : path :=
  [test_dir file_size_kb; "room_files"; "test_" +:+ pretty file_size_kb +:+ ".bin"].

Definition template_path : path := ["tests"; "integration"; "test_user_key.pub"].

(** Lines 14-15. *)
Definition remove_stale (file_size_kb : Z) : M unit :=
  e ← os_path_exists [test_dir file_size_kb];
  if e : bool then rmtree [test_dir file_size_kb] else mret tt.

(** Lines 16-27. *)
Definition write_fixture (env : Env) (file_size_kb : Z) : M unit :=
  makedirs [test_dir file_size_kb; "room_files"];;
  makedirs [test_dir file_size_kb; "users"];;
  open_w (payload_path file_size_kb);;
  data ← urandom env (file_size_kb * 1024);
  f_write (payload_path file_size_kb) data;;
  text ← read_text template_path;
  let pubkey := strip text in
  open_w [test_dir file_size_kb; "users"; "maurits"];;
  f_write_text [test_dir file_size_kb; "users"; "maurits"] pubkey;;
  open_w [test_dir file_size_kb; "users"; "myroom"];;
  f_write_text [test_dir file_size_kb; "users"; "myroom"] pubkey.

Definition provision (env : Env) (file_size_kb : Z) : M unit :=
  remove_stale file_size_kb;;
  write_fixture env file_size_kb.

(** ** run_test, lines 29-47: ports and the three role processes *)

Definition ep_port (file_size_kb : Z) : Z := 44322 + file_size_kb mod 100.

Definition client_port (file_size_kb : Z) : Z := 44323 + file_size_kb mod 100.

(** The handles of the entrypoint, the room ([client] in the source) and the
    client ([wrapper] in the source). *)
Definition start_roles (file_size_kb : Z) (limit_str : string) : M (nat * nat * nat) :=
  let dir := test_dir file_size_kb in
  ep ← Popen ["./unn-entrypoint-bin"; "-headless";
              "-port"; pretty (ep_port file_size_kb);
              "-users"; dir +:+ "/users";
              "-hostkey"; dir +:+ "/host_key"];
  client ← Popen ["./unn-room-bin"; "-port"; pretty (client_port file_size_kb);
                  "-room"; "myroom";
                  "-entrypoint"; "localhost:" +:+ pretty (ep_port file_size_kb);
                  "-headless"; "-identity"; "tests/integration/test_user_key";
                  "-max-upload"; limit_str;
                  "-files"; "./" +:+ dir +:+ "/room_files"];
  wrapper ← Popen ["./unn-client-bin"; "-batch";
                   "-identity"; "tests/integration/test_user_key";
                   "ssh://maurits@localhost:" +:+ pretty (ep_port file_size_kb)
                     +:+ "/myroom"];
  mret (ep, client, wrapper).

(** ** run_test, lines 49-66: liveness check and the download command

    [false] when [run_test] returns [False] here. *)

Definition request_file (env : Env) (file_size_kb : Z) (ep client : nat) : M bool :=
  code ← poll env;
  match code with
  | Some returncode =>
      print (Text ("Wrapper exited early with code " +:+ pretty returncode));;
      captured ← stdout_read env;
      print (Text captured);;
      kill ep;;
      kill client;;
      mret false
  | None =>
      print (Text "Requesting file...");;
      broken ← stdin_write env ("/get test_" +:+ pretty file_size_kb +:+ ".bin" +:+ nl);
      if broken : bool then
        print (Text "Broken pipe when sending command. Wrapper output:");;
        captured ← stdout_read env;
        print (Text captured);;
        kill ep;;
        kill client;;
        mret false
      else mret true
  end.

(** ** run_test, lines 68-89: the scan of the client's output *)

Definition sentinel : string := "UNN DOWNLOAD READY".

(** The [while True] loop, entered with the current [start_transfer]. *)
Fixpoint scan (fuel : nat) (env : Env) (start_transfer : option float)
  : M (option float) :=
  match fuel with
  | O => fun _ => OutOfFuel
  | S fuel' =>
      line ← readline env;
      match line with
      | EmptyString =>
          code ← poll env;
          match code with
          | Some _ =>
              print (Text "DEBUG: Wrapper process terminated.");;
              mret start_transfer
          | None => scan fuel' env start_transfer
          end
      | _ =>
          print (Received line);;
          print (Raw line);;
          if contains sentinel line then
            print (Text "DEBUG: FOUND TRIGGER! Transfer started (Instruction block detected)...");;
            now ← time_time env;
            scan fuel' env (Some now)
          else scan fuel' env start_transfer
      end
  end.

(** From [start_transfer = None] to [end_transfer = time.time()]:
    the pair (start_transfer, end_transfer).  [wrapper.wait()] returns at
    once, the loop having seen the process exited. *)
Definition await_transfer (fuel : nat) (env : Env) : M (option float * float) :=
  print (Text "DEBUG: Waiting for 'UNN DOWNLOAD READY'...");;
  start_transfer ← scan fuel env None;
  end_transfer ← time_time env;
  mret (start_transfer, end_transfer).

(** ** run_test, lines 91-114: the verdict *)

(** [a / b] for an [int] and a [float]. *)
Definition truediv (a : Z) (b : float) : M float :=
  match float_of_int a with
  | None => raise OverflowError
  | Some x => if float_is_zero b then raise ZeroDivisionError
              else mret (x / b)%float
  end.

(** [a * b] for an [int] and a [float]. *)
Definition mul (a : Z) (b : float) : M float :=
  match float_of_int a with
  | None => raise OverflowError
  | Some x => mret (x * b)%float
  end.

(** Line 100: the f-string renders [expected_duration] in decimal digits,
    or raises [ValueError] when they are too many; nothing is printed then. *)
Definition report_took (actual_duration : float) (expected_duration : Z) : M unit :=
  if fits_str expected_duration
  then print (Took actual_duration expected_duration)
  else raise ValueError.

Definition conclude (file_size_kb expected_duration : Z) (ep client : nat)
    (start_transfer : option float) (end_transfer : float) : M bool :=
  match start_transfer with
  | None =>
      print (Text "Failed to trigger download");;
      kill ep;;
      kill client;;
      mret false
  | Some start =>
      let actual_duration := (end_transfer - start)%float in
      speed_kb_s ← truediv file_size_kb actual_duration;
      report_took actual_duration expected_duration;;
      print (Speed speed_kb_s);;
      kill ep;;
      kill client;;
      rmtree [test_dir file_size_kb];;
      threshold ← mul expected_duration 0.8%float;
      if float_ge actual_duration threshold then
        print (Text "SUCCESS: Rate limiting works!");;
        mret true
      else
        print (Text "FAILURE: Rate limiting is not effective.");;
        mret false
  end.

(** ** run_test and the main block *)

Definition header (file_size_kb : Z) (limit_str : string) : msg :=
  Text (nl +:+ "--- Testing: " +:+ pretty file_size_kb +:+ "KB file with "
          +:+ limit_str +:+ " limit ---").

(** Lines 10-66: [Some (ep, client)] when the command was sent, [None] when
    [run_test] has returned [False]. *)
Definition prepare (env : Env) (file_size_kb : Z) (limit_str : string)
  : M (option (nat * nat)) :=
  print (header file_size_kb limit_str);;
  provision env file_size_kb;;
  '(ep, client, _) ← start_roles file_size_kb limit_str;
  sent ← request_file env file_size_kb ep client;
  mret (if sent : bool then Some (ep, client) else None).

Definition run_test (fuel : nat) (env : Env) (file_size_kb : Z)
    (limit_str : string) (expected_duration : Z) : M bool :=
  handles ← prepare env file_size_kb limit_str;
  match handles with
  | None => mret false
  | Some (ep, client) =>
      '(start_transfer, end_transfer) ← await_transfer fuel env;
      conclude file_size_kb expected_duration ep client start_transfer end_transfer
  end.

(** The [__main__] block: the exit code of the process. *)
Definition main (fuel : nat) (env : Env) : M Z :=
  let success := true in
  r1 ← run_test fuel env 50 "10KB" 5;
  let success := if negb r1 then false else success in
  r2 ← run_test fuel env 150 "30KB" 5;
  let success := if negb r2 then false else success in
  if success then
    print (Text (nl +:+ "ALL TESTS PASSED"));;
    mret 0
  else
    print (Text (nl +:+ "SOME TESTS FAILED"));;
    mret 1.

(** * Vocabulary of the statements, and sample worlds *)

(** The file system is a tree: what lies below a name lies in a directory. *)
Definition wf_fs (f : gmap path node) : Prop :=
  forall (p : path) (c : string),
    p <> [] -> is_Some (f !! (p ++ [c])) -> f !! p = Some Dir.

(** Everything in the state but the file system and the entropy consumed. *)
Definition io (s : St) : list proc * list msg * nat * nat * nat * nat * nat :=
  (procs s, out s, k_poll s, k_write s, k_read s, k_readline s, k_time s).

(** [keeps_dirs m]: a successful run of [m] leaves every directory in place
    and touches nothing but the file system and the entropy. *)
Definition keeps_dirs {A : Type} (m : M A) : Prop :=
  forall s a s', m s = Done a s' ->
    (forall q, fs s !! q = Some Dir -> fs s' !! q = Some Dir) /\ io s' = io s.

(** How many of the lines read by calls [from], ..., [from + n - 1] of
    [readline] hold the sentinel. *)
Fixpoint sentinel_lines (env : Env) (from n : nat) : nat :=
  match n with
  | O => O
  | S n' =>
      ((if contains sentinel (readline_results env from) then 1 else 0)
       + sentinel_lines env (S from) n')%nat
  end.

Definition boot (f : gmap path node) : St :=
  {| fs := f; procs := []; out := []; k_entropy := 0; k_poll := 0;
     k_write := 0; k_read := 0; k_readline := 0; k_time := 0 |}.

(** A working directory that holds the template key and nothing else. *)
Definition sample_fs : gmap path node :=
  {[ ["tests"] := Dir;
     ["tests"; "integration"] := Dir;
     template_path :=
       File (list_byte_of_string ("ssh-ed25519 AAAAC3Nz maurits@host" +:+ nl)) ]}.

(** A world given by the first answers to each kind of call; after them the
    client has exited with code 0, its output is at its end, the pipe to it
    is broken, and the clock stands at 0. *)
Definition script (polls : list (option Z)) (writes : list bool)
    (lines : list string) (times : list float) (captured : string) : Env :=
  {| entropy := fun _ => x2a;
     poll_results := fun k => default (Some 0) (polls !! k);
     write_results := fun k => default true (writes !! k);
     read_results := fun _ => captured;
     readline_results := fun k => default "" (lines !! k);
     time_results := fun k => default 0%float (times !! k) |}.

(** The client prints the sentinel twice, at 100 s and at 103 s, and exits
    at 110 s. *)
Definition two_sentinels : Env :=
  script [None; None; Some 0] [false]
    ["connected" +:+ nl; "UNN DOWNLOAD READY" +:+ nl;
     "UNN DOWNLOAD READY" +:+ nl; ""; ""]
    [100; 103; 110]%float "".

(** The client never exits and never prints. *)
Definition hung_client : Env :=
  {| entropy := fun _ => x00;
     poll_results := fun _ => None;
     write_results := fun _ => false;
     read_results := fun _ => "";
     readline_results := fun _ => "";
     time_results := fun _ => 0%float |}.

Definition returned {A : Type} (r : res A) : option A :=
  match r with
  | Done a _ => Some a
  | _ => None
  end.

Definition final {A : Type} (r : res A) : St :=
  match r with
  | Done _ s | Raise _ s => s
  | OutOfFuel => boot ∅
  end.

Definition state_after {A : Type} (r : res A) : option St :=
  match r with
  | Done _ s | Raise _ s => Some s
  | OutOfFuel => None
  end.

(** The transfer lasted exactly as long as the clock says: 110 - 103 = 7 s
    against 5 s expected, 1 KB. *)
Definition steady_client : Env :=
  script [None; Some 0] [false] ["UNN DOWNLOAD READY" +:+ nl; ""]
    [103; 110]%float "".

(** The clock reads the same at the sentinel and at the exit. *)
Definition instant_client : Env :=
  script [None; Some 0] [false] ["UNN DOWNLOAD READY" +:+ nl; ""]
    [103; 103]%float "".

(** The client is gone at the liveness check, with exit code 1. *)
Definition dead_client : Env :=
  script [Some 1] [] [] [] ("dial tcp: connection refused" +:+ nl).

(** The client is alive at the liveness check and its input pipe is closed. *)
Definition deaf_client : Env :=
  script [None] [true] [] [] ("stdin closed" +:+ nl).

(** The first client is gone at the liveness check; the second serves the
    file in 106 - 100 = 6 s. *)
Definition one_dead_one_good : Env :=
  script [Some 1; None; Some 0] [false] ["UNN DOWNLOAD READY" +:+ nl; ""]
    [100; 106]%float ("dial tcp: connection refused" +:+ nl).

Definition cleared (d : string) (f : gmap path node) : gmap path node :=
  filter (fun kv => ~ [d] `prefix_of` kv.1) f.

(** The identity credential: the template key read as text, stripped and
    written back; [None] when the key is not UTF-8. *)
Definition credential (key : list byte) : option (list byte) :=
  t ← decode_utf8 key;
  encode_utf8 (strip (universal_newlines t)).

(** A Unicode scalar value: a code point that is not a surrogate. *)
Definition scalar (c : N) : bool :=
  ((c <? 0xD800) || (0xDFFF <? c) && (c <? 0x110000))%N.

(** The file system that [write_fixture] builds over [f], [cred] being the
    credential. *)
Definition fixture (env : Env) (kb : Z) (k : nat) (cred : list byte)
    (f : gmap path node) : gmap path node :=
  <[ [test_dir kb; "users"; "myroom"] := File cred ]>
  (<[ [test_dir kb; "users"; "maurits"] := File cred ]>
  (<[ payload_path kb := File (map (entropy env) (seq k (Z.to_nat (kb * 1024)))) ]>
  (<[ [test_dir kb; "users"] := Dir ]>
  (<[ [test_dir kb; "room_files"] := Dir ]>
  (<[ [test_dir kb] := Dir ]> f))))).

(** The paths that [provision] creates. *)
Definition fixture_paths (kb : Z) : list path :=
  [ [test_dir kb]; [test_dir kb; "room_files"]; [test_dir kb; "users"];
    payload_path kb; [test_dir kb; "users"; "maurits"];
    [test_dir kb; "users"; "myroom"] ].

(** [wf_fs], decided entry by entry. *)
Definition wf_fsb (f : gmap path node) : bool :=
  forallb (fun kv : path * node =>
             match removelast kv.1 with
             | [] => true
             | d => match f !! d with Some Dir => true | _ => false end
             end) (map_to_list f).

(** The process behind handle [h] has been killed. *)
Definition is_killed (h : nat) (s : St) : Prop :=
  killed <$> procs s !! h = Some true.

(** The client is alive, takes the command, prints nothing and exits. *)
Definition silent_client : Env :=
  script [None; Some 0] [false] [] [12]%float "".

(** The transfer takes 104 - 103 = 1 s against 5 s expected. *)
Definition unthrottled_client : Env :=
  script [None; Some 0] [false] ["UNN DOWNLOAD READY" +:+ nl; ""]
    [103; 104]%float "".

(** What is left of the fixture of a 50 KB test after [run_test]: the
    verdict, whether the fixture directory is still there, the size of the
    payload file if it is, and which processes were killed. *)
Definition leftovers (env : Env) : option (bool * bool * option Z * list bool) :=
  let r := run_test 3 env 50 "10KB" 5 (boot sample_fs) in
  b ← returned r;
  s ← state_after r;
  Some (b,
        match fs s !! [test_dir 50] with Some Dir => true | _ => false end,
        match fs s !! payload_path 50 with
        | Some (File data) => Some (Z.of_nat (length data))
        | _ => None
        end,
        killed <$> procs s).

(** A working directory in which a file has the name of the 1 KB fixture. *)
Definition blocked_fs : gmap path node :=
  <[ [test_dir 1] := File [] ]> sample_fs.

(** A working directory whose template key ends in a Latin-1 no-break space,
    the byte A0, which is no UTF-8. *)
Definition latin1_fs : gmap path node :=
  {[ ["tests"] := Dir;
     ["tests"; "integration"] := Dir;
     template_path := File (list_byte_of_string "key" ++ [xa0]) ]}.

(** [touches_only_below d m]: a successful run of [m] leaves every path that
    is not [d] or below it as it was. *)
Definition touches_only_below (d : string) {A : Type} (m : M A) : Prop :=
  forall s a s', m s = Done a s' ->
    forall q, ~ [d] `prefix_of` q -> fs s' !! q = fs s !! q.

(** The messages for one line read: none for the empty string. *)
Definition echo (line : string) : list msg :=
  match line with
  | EmptyString => []
  | _ =>
      [Received line; Raw line] ++
      (if contains sentinel line
       then [Text "DEBUG: FOUND TRIGGER! Transfer started (Instruction block detected)..."]
       else [])
  end.

(** The messages for the lines read by calls [from], ..., [from + n - 1]. *)
Fixpoint echoes (env : Env) (from n : nat) : list msg :=
  match n with
  | O => []
  | S n' => echo (readline_results env from) ++ echoes env (S from) n'
  end.

(** * Proofs *)

Arguments contains : simpl never.
Arguments test_dir : simpl never.
Arguments fits_str : simpl never.

Ltac run_ops :=
  unfold mbind, M_bind, mret, M_ret, modify, gets, raise, print, kill,
    os_path_exists, rmtree, mkdir_exist_ok, open_w, f_write, read_text,
    urandom, poll, stdin_write, stdout_read, readline, time_time, Popen in *.

Ltac case_lookup H :=
  match type of H with
  | context [match ?t with Some _ => _ | None => _ end] =>
      match type of t with
      | option node =>
          let E := fresh "E" in
          revert H; destruct t as [[|?]|] eqn:E; intros H
      end
  end.

Lemma test_dir_not_tests kb : test_dir kb <> "tests".
Proof. unfold test_dir. simpl. discriminate. Qed.

Lemma wf_fs_absent (f : gmap path node) (d : string) :
  wf_fs f -> f !! [d] = None -> forall p, f !! (d :: p) = None.
Proof.
  intros Hwf Hd p. induction p as [|c p IH] using rev_ind; [done|].
  destruct (f !! (d :: p ++ [c])) eqn:E; [|done].
  assert (f !! (d :: p) = Some Dir) as HD.
  { apply (Hwf (d :: p) c); [done|]. rewrite <- app_comm_cons. eauto. }
  congruence.
Qed.

(** ** Running the monad *)

Lemma bind_unfold {A B : Type} (m : M A) (k : A -> M B) (s : St) :
  (m ≫= k) s = match m s with
               | Done a s' => k a s'
               | Raise e s' => Raise e s'
               | OutOfFuel => OutOfFuel
               end.
Proof. reflexivity. Qed.

Lemma bind_Done {A B : Type} (m : M A) (k : A -> M B) (s : St) (a : A) (s1 : St) :
  m s = Done a s1 -> (m ≫= k) s = k a s1.
Proof. intros H. rewrite bind_unfold, H. reflexivity. Qed.

Lemma bind_Done_inv {A B : Type} (m : M A) (k : A -> M B) (s : St) (b : B) (s' : St) :
  (m ≫= k) s = Done b s' -> exists a s1, m s = Done a s1 /\ k a s1 = Done b s'.
Proof.
  rewrite bind_unfold. destruct (m s) as [a s1| |]; [|discriminate..].
  intros H. exists a, s1. split; [reflexivity|exact H].
Qed.

Lemma keeps_dirs_ret {A : Type} (a : A) : keeps_dirs (mret a).
Proof. intros s a' s' [= <- <-]. split; [auto|reflexivity]. Qed.

Lemma keeps_dirs_bind {A B : Type} (m : M A) (k : A -> M B) :
  keeps_dirs m -> (forall a, keeps_dirs (k a)) -> keeps_dirs (m ≫= k).
Proof.
  intros Hm Hk s b s' H.
  apply bind_Done_inv in H as (a & s1 & H1 & H2).
  apply Hm in H1 as [D1 I1]. apply Hk in H2 as [D2 I2].
  split; [auto|congruence].
Qed.

Lemma keeps_dirs_mkdir (p : path) : keeps_dirs (mkdir_exist_ok p).
Proof.
  intros s a s'. unfold mkdir_exist_ok.
  destruct (fs s !! p) as [[|d]|] eqn:E; intros ?; simplify_eq; split; auto.
  intros q Hq. unfold set_fs; simpl. destruct (decide (p = q)) as [->|Hne].
  - congruence.
  - rewrite lookup_insert_ne; auto.
Qed.

Lemma keeps_dirs_makedirs_from (rest head : path) :
  keeps_dirs (makedirs_from head rest).
Proof.
  revert head. induction rest as [|c rest IH]; intros head; simpl.
  - apply keeps_dirs_ret.
  - apply keeps_dirs_bind; [apply keeps_dirs_mkdir|intros _; apply IH].
Qed.

Lemma keeps_dirs_makedirs (p : path) : keeps_dirs (makedirs p).
Proof. apply keeps_dirs_makedirs_from. Qed.

Lemma keeps_dirs_open_w (p : path) : keeps_dirs (open_w p).
Proof.
  intros s a s'. unfold open_w.
  destruct (match removelast p with [] => true | _ => _ end);
    [|discriminate].
  destruct (fs s !! p) as [[|d]|] eqn:E; intros ?; simplify_eq; split; auto.
  all: intros q Hq; unfold set_fs; simpl; destruct (decide (p = q)) as [->|Hne];
    [congruence|rewrite lookup_insert_ne; auto].
Qed.

Lemma keeps_dirs_f_write (p : path) (data : list byte) : keeps_dirs (f_write p data).
Proof.
  intros s a s' H. unfold f_write, modify in H. simplify_eq.
  split; [|reflexivity].
  intros q Hq. unfold set_fs; simpl. destruct (decide (p = q)) as [->|Hne].
  - rewrite lookup_alter_eq, Hq. reflexivity.
  - rewrite lookup_alter_ne; auto.
Qed.

Lemma keeps_dirs_f_write_text (p : path) (t : text) : keeps_dirs (f_write_text p t).
Proof.
  unfold f_write_text. destruct (encode_utf8 t) as [data|].
  - apply keeps_dirs_f_write.
  - intros s a s' H. discriminate H.
Qed.

Lemma keeps_dirs_urandom (env : Env) (n : Z) : keeps_dirs (urandom env n).
Proof.
  intros s a s'. unfold urandom.
  destruct ((n <? - 2 ^ 63) || (2 ^ 63 - 34 <? n)); [discriminate|].
  destruct (n <? 0); [discriminate|].
  intros ?; simplify_eq. split; auto.
Qed.

Lemma keeps_dirs_read_text (p : path) : keeps_dirs (read_text p).
Proof.
  intros s a s'. unfold read_text.
  destruct (fs s !! p) as [[|d]|]; try discriminate.
  destruct (decode_utf8 d); [|discriminate].
  intros ?; simplify_eq. split; auto.
Qed.

Lemma mkdir_exist_ok_dir (p : path) (s s' : St) :
  mkdir_exist_ok p s = Done tt s' -> fs s' !! p = Some Dir.
Proof.
  unfold mkdir_exist_ok. destruct (fs s !! p) as [[|d]|] eqn:E; intros [= <-].
  - exact E.
  - unfold set_fs; simpl. apply lookup_insert_eq.
Qed.

(** What a successful [provision] leaves: the fixture directory, and the
    rest of the state as it was. *)
Lemma remove_stale_frame (kb : Z) (s s' : St) :
  remove_stale kb s = Done tt s' -> io s' = io s.
Proof.
  unfold remove_stale. intros H.
  apply bind_Done_inv in H as (e & s1 & H1 & H2).
  injection H1 as _ <-. destruct e; [|injection H2 as <-; reflexivity].
  unfold rmtree in H2. case_lookup H2; simplify_eq. reflexivity.
Qed.

Lemma write_fixture_frame (env : Env) (kb : Z) (s s' : St) :
  write_fixture env kb s = Done tt s' ->
  fs s' !! [test_dir kb] = Some Dir /\ io s' = io s.
Proof.
  unfold write_fixture. intros H.
  apply bind_Done_inv in H as ([] & s3 & H3 & H).
  assert (fs s3 !! [test_dir kb] = Some Dir /\ io s3 = io s) as [D3 I3].
  { unfold makedirs in H3. simpl in H3.
    apply bind_Done_inv in H3 as ([] & s2' & Ha & Hb).
    apply mkdir_exist_ok_dir in Ha as Hd.
    apply keeps_dirs_mkdir in Ha as [_ Ia].
    apply bind_Done_inv in Hb as ([] & s2'' & Hb & Hc).
    apply keeps_dirs_mkdir in Hb as [Db Ib]. injection Hc as <-.
    split; [auto|congruence]. }
  revert H. generalize D3.
  match goal with
  | |- _ -> ?m s3 = _ -> _ => assert (keeps_dirs m) as K
  end.
  { repeat first
      [ apply keeps_dirs_makedirs | apply keeps_dirs_open_w
      | apply keeps_dirs_f_write | apply keeps_dirs_f_write_text
      | apply keeps_dirs_urandom
      | apply keeps_dirs_read_text | apply keeps_dirs_bind; [|intros ?] ]. }
  intros _ H. apply K in H as [D I]. split; [auto|congruence].
Qed.

(** What a successful [provision] leaves: the fixture directory, and the
    rest of the state as it was. *)
Lemma provision_frame (env : Env) (kb : Z) (s s' : St) :
  provision env kb s = Done tt s' ->
  fs s' !! [test_dir kb] = Some Dir /\ io s' = io s.
Proof.
  unfold provision. intros H.
  apply bind_Done_inv in H as ([] & s1 & H1 & H2).
  apply remove_stale_frame in H1. apply write_fixture_frame in H2 as [D I].
  split; [exact D|congruence].
Qed.

(** ** Frames of the later stages *)

Lemma start_roles_run (kb : Z) (limit : string) (s : St) :
  exists s', start_roles kb limit s
               = Done (length (procs s), S (length (procs s)),
                       S (S (length (procs s)))) s' /\
    fs s' = fs s /\ out s' = out s /\ k_poll s' = k_poll s /\
    k_write s' = k_write s /\ k_read s' = k_read s /\
    k_readline s' = k_readline s /\ k_time s' = k_time s /\
    length (procs s') = S (S (S (length (procs s)))) /\
    (forall h, (h < length (procs s))%nat -> procs s' !! h = procs s !! h).
Proof.
  unfold start_roles. run_ops. unfold set_procs. simpl.
  rewrite !length_app. simpl.
  replace (length (procs s) + 1)%nat with (S (length (procs s))) by lia.
  replace (S (length (procs s)) + 1)%nat with (S (S (length (procs s)))) by lia.
  eexists. split; [reflexivity|]. simpl.
  repeat split; try reflexivity.
  - rewrite !length_app. simpl. lia.
  - intros h Hh.
    rewrite !lookup_app_l by (rewrite ?length_app; simpl; lia). reflexivity.
Qed.

(** ** The scan loop *)

(** One turn of the loop. *)
Lemma scan_S (fuel : nat) (env : Env) (start : option float) (s : St) :
  scan (S fuel) env start s =
  match readline_results env (k_readline s) with
  | EmptyString =>
      match poll_results env (k_poll s) with
      | Some _ =>
          Done start (say (Text "DEBUG: Wrapper process terminated.")
                        (tick_poll (tick_readline s)))
      | None => scan fuel env start (tick_poll (tick_readline s))
      end
  | line =>
      let s1 := say (Raw line) (say (Received line) (tick_readline s)) in
      if contains sentinel line then
        scan fuel env (Some (time_results env (k_time s)))
          (tick_time (say (Text "DEBUG: FOUND TRIGGER! Transfer started (Instruction block detected)...") s1))
      else scan fuel env start s1
  end.
Proof.
  simpl. rewrite bind_unfold. unfold readline at 1.
  destruct (readline_results env (k_readline s)) as [|c line].
  - rewrite bind_unfold. unfold poll at 1. simpl.
    destruct (poll_results env (k_poll s)); reflexivity.
  - cbv zeta. destruct (contains sentinel (String c line)); reflexivity.
Qed.

(** The scan touches neither the file system nor the process table. *)
Lemma scan_frame (fuel : nat) (env : Env) (start : option float) (s : St)
    (r : option float) (s' : St) :
  scan fuel env start s = Done r s' ->
  fs s' = fs s /\ procs s' = procs s /\ k_write s' = k_write s /\
  k_read s' = k_read s.
Proof.
  revert start s. induction fuel as [|fuel IH]; intros start s; [discriminate|].
  rewrite scan_S.
  destruct (readline_results env (k_readline s)) as [|c line].
  - destruct (poll_results env (k_poll s)) as [code|].
    + intros H. simplify_eq. simpl. auto.
    + intros H. apply IH in H. simpl in H. exact H.
  - cbv zeta. destruct (contains sentinel (String c line));
      intros H; apply IH in H; simpl in H; exact H.
Qed.

Lemma sentinel_lines_S (env : Env) (a b : nat) :
  (a < b)%nat ->
  sentinel_lines env a (b - a) =
  ((if contains sentinel (readline_results env a) then 1 else 0)
   + sentinel_lines env (S a) (b - S a))%nat.
Proof.
  intros Hab. replace (b - a)%nat with (S (b - S a)) by lia. reflexivity.
Qed.

Lemma scan_spec (fuel : nat) (env : Env) (start : option float) (s : St)
    (r : option float) (s' : St) :
  scan fuel env start s = Done r s' ->
  (k_readline s < k_readline s')%nat /\
  readline_results env (pred (k_readline s')) = "" /\
  (k_poll s < k_poll s')%nat /\
  poll_results env (pred (k_poll s')) <> None /\
  (forall j, (k_poll s <= j < pred (k_poll s'))%nat -> poll_results env j = None) /\
  let n := sentinel_lines env (k_readline s) (k_readline s' - k_readline s) in
  k_time s' = (k_time s + n)%nat /\
  r = match n with
      | O => start
      | S m => Some (time_results env (k_time s + m))
      end.
Proof.
  revert start s. induction fuel as [|fuel IH]; intros start s; [discriminate|].
  rewrite scan_S.
  destruct (readline_results env (k_readline s)) as [|c line] eqn:Eline.
  - destruct (poll_results env (k_poll s)) as [code|] eqn:Epoll.
    + intros H. simplify_eq. simpl.
      replace (S (k_readline s) - k_readline s)%nat with 1%nat by lia.
      simpl. rewrite Eline, Epoll.
      repeat split; try lia; try done.
    + intros H. apply IH in H. simpl in H.
      destruct H as (R1 & R2 & P1 & P2 & P3 & T1 & T2).
      rewrite sentinel_lines_S by lia. rewrite Eline.
      change (contains sentinel "") with false. simpl.
      repeat split; try lia; try done.
      intros j Hj. destruct (decide (j = k_poll s)) as [->|Hne]; [done|].
      apply P3. lia.
  - cbv zeta. destruct (contains sentinel (String c line)) eqn:Esent;
      intros H; apply IH in H; simpl in H;
      destruct H as (R1 & R2 & P1 & P2 & P3 & T1 & T2);
      rewrite sentinel_lines_S by lia; rewrite Eline, Esent.
    + repeat split; try lia; try done.
      rewrite T2. simpl.
      destruct (sentinel_lines env (S (k_readline s))
                  (k_readline s' - S (k_readline s))) as [|m].
      * rewrite Nat.add_0_r. reflexivity.
      * do 2 f_equal. lia.
    + repeat split; try lia; try done.
Qed.

(** A scan that is told, at every poll, that the process is alive, runs out
    of any fuel. *)
Lemma scan_forever (fuel : nat) (env : Env) (start : option float) (s : St) :
  (forall j, (k_poll s <= j)%nat -> poll_results env j = None) ->
  scan fuel env start s = OutOfFuel.
Proof.
  revert start s. induction fuel as [|fuel IH]; intros start s Halive;
    [reflexivity|].
  rewrite scan_S.
  destruct (readline_results env (k_readline s)) as [|c line].
  - rewrite (Halive (k_poll s)) by lia.
    apply IH. intros j Hj. simpl in Hj. apply Halive. lia.
  - cbv zeta. destruct (contains sentinel (String c line));
      apply IH; intros j Hj; simpl in Hj; apply Halive; lia.
Qed.

(** The scan raises nothing. *)
Lemma scan_no_raise (fuel : nat) (env : Env) (start : option float) (s : St)
    (e : exn) (s' : St) :
  scan fuel env start s <> Raise e s'.
Proof.
  revert start s. induction fuel as [|fuel IH]; intros start s; [discriminate|].
  rewrite scan_S.
  destruct (readline_results env (k_readline s)) as [|c line].
  - destruct (poll_results env (k_poll s)); [discriminate|apply IH].
  - cbv zeta. destruct (contains sentinel (String c line)); apply IH.
Qed.

(** X6.  Once the output is at its end for good and the process has exited
    for good, the scan returns: if every read after the next [n] is empty
    and every poll after the next [m] finds the process exited, [n + m + 1]
    turns of the loop are enough. *)
Lemma scan_terminates (env : Env) (n m fuel : nat) (start : option float) (s : St) :
  (forall j, (k_readline s + n <= j)%nat -> readline_results env j = "") ->
  (forall j, (k_poll s + m <= j)%nat -> poll_results env j <> None) ->
  (n + m < fuel)%nat ->
  exists r s', scan fuel env start s = Done r s'.
Proof.
  revert n m start s. induction fuel as [|fuel IH];
    intros n m start s Hread Hpoll Hfuel; [lia|].
  rewrite scan_S.
  destruct (readline_results env (k_readline s)) as [|c line] eqn:Eline.
  - destruct (poll_results env (k_poll s)) as [code|] eqn:Epoll; [eauto|].
    destruct m as [|m].
    { exfalso. apply (Hpoll (k_poll s)); [lia|exact Epoll]. }
    apply (IH n m); simpl; [| |lia].
    + intros j Hj. apply Hread. lia.
    + intros j Hj. apply Hpoll. lia.
  - destruct n as [|n].
    { rewrite Hread in Eline by lia. discriminate. }
    cbv zeta. destruct (contains sentinel (String c line));
      apply (IH n m); simpl; try lia;
      try (intros j Hj; apply Hread; lia); intros j Hj; apply Hpoll; lia.
Qed.

(** ** The liveness check and the command *)

Lemma request_file_run (env : Env) (kb : Z) (ep client : nat) (s : St) :
  request_file env kb ep client s =
  match poll_results env (k_poll s) with
  | Some returncode =>
      Done false
        (mark_killed client (mark_killed ep
           (say (Text (read_results env (k_read s)))
              (tick_read
                 (say (Text ("Wrapper exited early with code " +:+ pretty returncode))
                    (tick_poll s))))))
  | None =>
      if write_results env (k_write s) then
        Done false
          (mark_killed client (mark_killed ep
             (say (Text (read_results env (k_read s)))
                (tick_read
                   (say (Text "Broken pipe when sending command. Wrapper output:")
                      (tick_write (say (Text "Requesting file...") (tick_poll s))))))))
      else Done true (tick_write (say (Text "Requesting file...") (tick_poll s)))
  end.
Proof.
  unfold request_file. rewrite bind_unfold. unfold poll at 1.
  destruct (poll_results env (k_poll s)) as [code|]; [reflexivity|].
  rewrite bind_unfold. unfold print at 1, modify at 1.
  rewrite bind_unfold. unfold stdin_write at 1. simpl.
  destruct (write_results env (k_write s)); reflexivity.
Qed.

(** What [prepare] leaves behind when the command was sent. *)
Lemma prepare_sent (env : Env) (kb : Z) (limit : string) (s s1 : St)
    (ep client : nat) :
  prepare env kb limit s = Done (Some (ep, client)) s1 ->
  fs s1 !! [test_dir kb] = Some Dir /\
  ep = length (procs s) /\ client = S (length (procs s)) /\
  length (procs s1) = S (S (S (length (procs s)))) /\
  k_time s1 = k_time s /\ k_readline s1 = k_readline s /\
  poll_results env (k_poll s) = None /\
  write_results env (k_write s) = false.
Proof.
  unfold prepare. intros H.
  apply bind_Done_inv in H as ([] & s0 & H0 & H). injection H0 as <-.
  apply bind_Done_inv in H as ([] & sp & Hp & H).
  apply provision_frame in Hp as [Dp Ip]. unfold io in Ip. simpl in Ip.
  injection Ip as P1 P2 P3 P4 P5 P6 P7.
  destruct (start_roles_run kb limit sp)
    as (sr & Hr & F1 & F2 & F3 & F4 & F5 & F6 & F7 & F8 & F9).
  rewrite (bind_Done _ _ _ _ _ Hr) in H.
  rewrite bind_unfold, request_file_run in H.
  destruct (poll_results env (k_poll sr)) as [code|] eqn:Epoll; [discriminate|].
  destruct (write_results env (k_write sr)) eqn:Ewrite; [discriminate|].
  injection H as <- <- <-. simpl.
  repeat split; try congruence.
Qed.

Lemma await_transfer_run (fuel : nat) (env : Env) (s : St) :
  await_transfer fuel env s =
  match scan fuel env None (say (Text "DEBUG: Waiting for 'UNN DOWNLOAD READY'...") s) with
  | Done r s1 => Done (r, time_results env (k_time s1)) (tick_time s1)
  | Raise e s1 => Raise e s1
  | OutOfFuel => OutOfFuel
  end.
Proof.
  unfold await_transfer. rewrite bind_unfold. unfold print at 1, modify at 1.
  rewrite bind_unfold.
  destruct (scan fuel env None _) as [r s1|e s1|]; reflexivity.
Qed.

Lemma await_transfer_frame (fuel : nat) (env : Env) (s : St)
    (w : option float * float) (s2 : St) :
  await_transfer fuel env s = Done w s2 ->
  fs s2 = fs s /\ procs s2 = procs s.
Proof.
  rewrite await_transfer_run.
  destruct (scan fuel env None _) as [r s1|e s1|] eqn:E; [|discriminate..].
  apply scan_frame in E as (F & P & _). simpl in F, P.
  intros H. simplify_eq. simpl. auto.
Qed.

(** * The claims *)

(** C8.  The entrypoint's port is 44322 plus [file_size_kb % 100] and the
    room's is 44323 plus [file_size_kb % 100]; these are the ports on the
    command lines of the three processes.  Hence two file sizes get the same
    entrypoint port exactly when they agree modulo 100, the same room port
    exactly when they agree modulo 100, and so the same pair of ports
    exactly then. *)
Theorem ports_equal_iff_sizes_congruent (a b : Z) (limit : string) (s : St) :
  ep_port a = 44322 + a mod 100 /\
  client_port a = 44323 + a mod 100 /\
  (exists s', start_roles a limit s
                = Done (length (procs s), S (length (procs s)),
                        S (S (length (procs s)))) s' /\
     argv <$> procs s' =
       (argv <$> procs s) ++
       [ ["./unn-entrypoint-bin"; "-headless"; "-port"; pretty (ep_port a);
          "-users"; test_dir a +:+ "/users";
          "-hostkey"; test_dir a +:+ "/host_key"];
         ["./unn-room-bin"; "-port"; pretty (client_port a);
          "-room"; "myroom";
          "-entrypoint"; "localhost:" +:+ pretty (ep_port a);
          "-headless"; "-identity"; "tests/integration/test_user_key";
          "-max-upload"; limit;
          "-files"; "./" +:+ test_dir a +:+ "/room_files"];
         ["./unn-client-bin"; "-batch";
          "-identity"; "tests/integration/test_user_key";
          "ssh://maurits@localhost:" +:+ pretty (ep_port a) +:+ "/myroom"] ]) /\
  (ep_port a = ep_port b <-> a mod 100 = b mod 100) /\
  (client_port a = client_port b <-> a mod 100 = b mod 100) /\
  ((ep_port a = ep_port b /\ client_port a = client_port b)
   <-> a mod 100 = b mod 100).
Proof.
  split; [reflexivity|]. split; [reflexivity|]. split.
  - unfold start_roles. run_ops. unfold set_procs. simpl.
    rewrite !length_app. simpl.
    replace (length (procs s) + 1)%nat with (S (length (procs s))) by lia.
    replace (S (length (procs s)) + 1)%nat with (S (S (length (procs s)))) by lia.
    eexists. split; [reflexivity|]. simpl.
    rewrite !fmap_app, <- !app_assoc. reflexivity.
  - unfold ep_port, client_port. lia.
Qed.

(** C4.  The scan loop returns only from a turn in which [readline] gave
    the empty string and [poll] an exit code, every earlier poll having found
    the process alive; [end_transfer] is the next reading of the clock; and
    when every poll finds the process alive, the loop, [await_transfer] and
    [run_test] outlast any fuel. *)
Theorem scan_ends_only_at_eof_of_exited_process (fuel : nat) (env : Env) (s : St) :
  (forall start r s', scan fuel env start s = Done r s' ->
     (k_readline s < k_readline s')%nat /\
     readline_results env (pred (k_readline s')) = "" /\
     (k_poll s < k_poll s')%nat /\
     poll_results env (pred (k_poll s')) <> None /\
     forall j, (k_poll s <= j < pred (k_poll s'))%nat -> poll_results env j = None) /\
  (forall start end_transfer s2,
     await_transfer fuel env s = Done (start, end_transfer) s2 ->
     exists s1,
       scan fuel env None (say (Text "DEBUG: Waiting for 'UNN DOWNLOAD READY'...") s)
         = Done start s1 /\
       end_transfer = time_results env (k_time s1)) /\
  ((forall j, (k_poll s <= j)%nat -> poll_results env j = None) ->
     (forall start, scan fuel env start s = OutOfFuel) /\
     await_transfer fuel env s = OutOfFuel /\
     forall kb limit expected s0 ep client,
       prepare env kb limit s0 = Done (Some (ep, client)) s ->
       run_test fuel env kb limit expected s0 = OutOfFuel).
Proof.
  split; [|split].
  - intros start r s' H. apply scan_spec in H.
    destruct H as (R1 & R2 & P1 & P2 & P3 & _). auto.
  - intros start end_transfer s2. rewrite await_transfer_run.
    destruct (scan fuel env None _) as [r s1|e s1|]; [|discriminate..].
    intros [= <- <- <-]. eauto.
  - intros Halive.
    assert (await_transfer fuel env s = OutOfFuel) as Hawait.
    { rewrite await_transfer_run, scan_forever; [reflexivity|exact Halive]. }
    split; [|split]; [|exact Hawait|].
    + intros start. apply scan_forever. exact Halive.
    + intros kb limit expected s0 ep client Hprep. unfold run_test.
      rewrite (bind_Done _ _ _ _ _ Hprep). rewrite bind_unfold, Hawait.
      reflexivity.
Qed.

Lemma returned_Done {A : Type} (r : res A) (a : A) :
  returned r = Some a -> r = Done a (final r).
Proof. destruct r; simpl; congruence. Qed.

(** [ran H t a]: the closed computation [t] returns [a]; [H] is the equation
    between [t] and its result. *)
Ltac ran H t a :=
  assert (t = Done a (final t)) as H
    by (apply returned_Done; vm_compute; reflexivity).

Lemma scan_ends_witness :
  (readline_results two_sentinels 5 = "" /\
   poll_results two_sentinels 2 <> None /\
   poll_results two_sentinels 1 = None) /\
  scan 9 hung_client None (boot sample_fs) = OutOfFuel.
Proof.
  split.
  - destruct (scan_ends_only_at_eof_of_exited_process 6 two_sentinels
                (boot sample_fs)) as [H _].
    ran E (scan 6 two_sentinels None (boot sample_fs)) (Some 103%float).
    destruct (H _ _ _ E) as (_ & R & _ & P & A).
    split; [exact R|]. split; [exact P|]. apply A. vm_compute. lia.
  - destruct (scan_ends_only_at_eof_of_exited_process 9 hung_client
                (boot sample_fs)) as (_ & _ & H).
    apply H. intros j _. reflexivity.
Defined.

(** C2, as stated, fails: the sentinel comes on two lines, the clock reads
    100 at the first and 103 at the second, and [start_transfer] is 103. *)
Lemma start_transfer_is_not_the_first_occurrence :
  returned ((prepare two_sentinels 50 "10KB" ≫= fun _ => await_transfer 5 two_sentinels)
              (boot sample_fs))
    = Some (Some 103%float, 110%float) /\
  contains sentinel (readline_results two_sentinels 0) = false /\
  contains sentinel (readline_results two_sentinels 1) = true /\
  contains sentinel (readline_results two_sentinels 2) = true /\
  time_results two_sentinels 0 = 100%float /\
  Some 103%float <> Some (time_results two_sentinels 0).
Proof.
  repeat split; try (vm_compute; reflexivity).
  intros H.
  apply (f_equal (fun o => match o with
                           | Some x => PrimFloat.eqb x 100
                           | None => false
                           end)) in H.
  vm_compute in H. discriminate H.
Qed.

(** C2, amended.  When the lines scanned hold the sentinel [n + 1] times,
    the loop reads the clock [n + 1] times, once at each of them, and
    [start_transfer] is the last of these readings: every occurrence
    overwrites the one before.  [end_transfer] is the reading after it. *)
Theorem start_transfer_is_the_last_occurrence (fuel : nat) (env : Env) (s s2 : St)
    (start : option float) (end_transfer : float) (n : nat) :
  await_transfer fuel env s = Done (start, end_transfer) s2 ->
  sentinel_lines env (k_readline s) (k_readline s2 - k_readline s) = S n ->
  start = Some (time_results env (k_time s + n)) /\
  end_transfer = time_results env (k_time s + S n) /\
  k_time s2 = (k_time s + S n + 1)%nat.
Proof.
  rewrite await_transfer_run.
  destruct (scan fuel env None _) as [r s1|e s1|] eqn:E; [|discriminate..].
  intros H. simplify_eq. simpl. intros Hn.
  apply scan_spec in E. simpl in E.
  destruct E as (_ & _ & _ & _ & _ & T & R).
  rewrite Hn in T, R. rewrite T. repeat split; try done. lia.
Qed.

Lemma start_transfer_is_the_last_occurrence_witness :
  Some 103%float = Some (time_results two_sentinels 1) /\
  110%float = time_results two_sentinels 2 /\
  k_time (final (await_transfer 6 two_sentinels (boot sample_fs))) = 3%nat.
Proof.
  ran E (await_transfer 6 two_sentinels (boot sample_fs))
    (Some 103%float, 110%float).
  apply (start_transfer_is_the_last_occurrence _ _ _ _ _ _ 1 E).
  vm_compute. reflexivity.
Defined.

(** C5.  When the scan ends with [start_transfer] still [None], [run_test]
    prints "Failed to trigger download", kills the entrypoint and the room
    and returns [False], whatever the exit code of the client was. *)
Theorem no_trigger_fails (fuel : nat) (env : Env) (kb : Z) (limit : string)
    (expected : Z) (s s1 s2 : St) (ep client : nat) (end_transfer : float) :
  prepare env kb limit s = Done (Some (ep, client)) s1 ->
  await_transfer fuel env s1 = Done (None, end_transfer) s2 ->
  run_test fuel env kb limit expected s
    = Done false (mark_killed client (mark_killed ep
                    (say (Text "Failed to trigger download") s2))).
Proof.
  intros Hprep Hawait. unfold run_test.
  rewrite (bind_Done _ _ _ _ _ Hprep). rewrite bind_unfold, Hawait.
  reflexivity.
Qed.

(** ** Integers beyond the floats

    The conversion of an integer of more than 1024 bits rounds to an
    infinity, through [binary_round]: the mantissa is shifted down to 53
    bits, rounded, and the exponent that is left is above the largest. *)

Lemma digits2_pos_size (m : positive) : digits2_pos m = Pos.size m.
Proof. induction m; simpl; congruence. Qed.

Lemma digits2_pos_bounds (m : positive) :
  2 ^ (Z.pos (digits2_pos m) - 1) <= Z.pos m < 2 ^ Z.pos (digits2_pos m).
Proof.
  rewrite digits2_pos_size. split.
  - pose proof (Pos.size_le m) as H.
    apply Pos2Z.pos_le_pos in H. rewrite Pos2Z.inj_pow in H.
    replace (Z.pos (Pos.size m)) with (Z.succ (Z.pos (Pos.size m) - 1)) in H by lia.
    rewrite Z.pow_succ_r in H by lia. lia.
  - pose proof (Pos.size_gt m) as H.
    apply Pos2Z.pos_lt_pos in H. rewrite Pos2Z.inj_pow in H. exact H.
Qed.

Lemma shr_1_m (mrs : shr_record) :
  0 <= shr_m mrs -> shr_m (shr_1 mrs) = Z.div2 (shr_m mrs).
Proof.
  destruct mrs as [m r s]. simpl. destruct m as [|[p|p|]|p]; try reflexivity; lia.
Qed.

Lemma iter_shr_1_m (p : positive) : forall mrs,
  0 <= shr_m mrs ->
  shr_m (SpecFloat.iter_pos shr_1 p mrs) = Z.shiftr (shr_m mrs) (Z.pos p).
Proof.
  assert (forall x, 0 <= x -> 0 <= Z.div2 x) as Hd.
  { intros x Hx. rewrite Z.div2_div. apply Z.div_pos; lia. }
  assert (forall x n, 0 <= x -> 0 <= n -> 0 <= Z.shiftr x n) as Hs.
  { intros x n Hx Hn. apply Z.shiftr_nonneg. exact Hx. }
  induction p as [p IH|p IH|]; intros mrs Hm; simpl.
  - rewrite IH.
    2:{ rewrite IH; [apply Hs; [|lia]|]; rewrite shr_1_m by exact Hm; auto. }
    rewrite IH by (rewrite shr_1_m by exact Hm; auto).
    rewrite shr_1_m by exact Hm.
    rewrite Z.div2_spec, !Z.shiftr_shiftr by lia. f_equal. lia.
  - rewrite IH by (rewrite IH by exact Hm; apply Hs; [exact Hm|lia]).
    rewrite IH by exact Hm. rewrite Z.shiftr_shiftr by lia. f_equal. lia.
  - rewrite shr_1_m by exact Hm. apply Z.div2_spec.
Qed.

Lemma pow2_lt_inv (a b : Z) : 0 <= b -> 2 ^ a < 2 ^ b -> a < b.
Proof. intros Hb H. apply (Z.pow_lt_mono_r_iff 2); [lia|exact Hb|exact H]. Qed.

Lemma round_tail (sx : bool) (m1 e' : Z) :
  2 ^ 52 <= m1 <= 2 ^ 53 -> 971 < e' ->
  (let '(mrs'', e'') := shr_fexp prec emax m1 e' loc_Exact in
   match shr_m mrs'' with
   | Z0 => S754_zero sx
   | Zpos m => if e'' <=? emax - prec then S754_finite sx m e'' else S754_infinity sx
   | _ => S754_nan
   end) = S754_infinity sx.
Proof.
  intros Hm He.
  assert (0 < m1) as Hpos by (pose proof (Z.pow_pos_nonneg 2 52); lia).
  destruct m1 as [|p|p]; try lia.
  pose proof (digits2_pos_bounds p) as [B1 B2].
  assert (52 < Z.pos (digits2_pos p)) as D1.
  { apply pow2_lt_inv; lia. }
  assert (Z.pos (digits2_pos p) - 1 < 54) as D2.
  { apply pow2_lt_inv; [lia|].
    change (2 ^ 54) with (2 * 2 ^ 53). lia. }
  unfold shr_fexp, fexp, emin, Zdigits2, shr_record_of_loc, prec, emax, shr.
  assert (Z.pos (digits2_pos p) = 53 \/ Z.pos (digits2_pos p) = 54) as [E|E] by lia.
  - rewrite E. replace (Z.max (53 + e' - 53) (3 - 1024 - 53) - e') with 0 by lia.
    simpl shr_m. cbv iota beta.
    destruct (e' <=? 1024 - 53) eqn:L; [lia|reflexivity].
  - rewrite E. replace (Z.max (54 + e' - 53) (3 - 1024 - 53) - e') with 1 by lia.
    cbn [SpecFloat.iter_pos].
    assert (exists q, shr_m (shr_1 {| shr_m := Z.pos p; shr_r := false; shr_s := false |})
                        = Z.pos q) as [q Hq].
    { rewrite shr_1_m by (simpl; lia). simpl shr_m.
      destruct p as [p|p|]; simpl; eauto. rewrite E in B1. simpl in B1. lia. }
    rewrite Hq.
    destruct (e' + 1 <=? 1024 - 53) eqn:L; [lia|reflexivity].
Qed.

Lemma binary_round_overflow (sx : bool) (m : positive) :
  1024 < Z.pos (digits2_pos m) ->
  binary_round prec emax sx m 0 = S754_infinity sx.
Proof.
  intros Hd. pose proof (digits2_pos_bounds m) as [B1 B2].
  set (d := Z.pos (digits2_pos m)) in *.
  unfold binary_round, shl_align, fexp, emin.
  fold d. unfold prec, emax.
  replace (Z.max (d + 0 - 53) (3 - 1024 - 53)) with (d - 53) by lia.
  destruct (d - 53 - 0) as [|n|n] eqn:En; try lia.
  - unfold binary_round_aux, shr_fexp at 1, fexp, emin, Zdigits2.
    fold d. unfold prec, emax, shr_record_of_loc at 1.
    replace (Z.max (d + 0 - 53) (3 - 1024 - 53) - 0) with (Z.pos n) by lia.
    unfold shr at 1.
    set (mrs' := SpecFloat.iter_pos shr_1 n _).
    change (shr_fexp 53 1024) with (shr_fexp prec emax).
    change (1024 - 53) with (emax - prec).
    apply round_tail; [|lia].
    assert (2 ^ 52 <= shr_m mrs' < 2 ^ 53) as Hq.
    { subst mrs'. rewrite iter_shr_1_m by (simpl; lia). simpl shr_m.
      rewrite Z.shiftr_div_pow2 by lia.
      assert (0 < 2 ^ Z.pos n) as Hp by (apply Z.pow_pos_nonneg; lia).
      split.
      - apply Z.div_le_lower_bound; [exact Hp|].
        rewrite <- Z.pow_add_r by lia.
        replace (Z.pos n + 52) with (d - 1) by lia. exact B1.
      - apply Z.div_lt_upper_bound; [exact Hp|].
        rewrite <- Z.pow_add_r by lia.
        replace (Z.pos n + 53) with d by lia. exact B2. }
    unfold round_nearest_even.
    destruct (loc_of_shr_record mrs') as [|[| |]]; try lia.
    destruct (Z.even (shr_m mrs')); lia.
Qed.

Lemma float_of_int_overflow (z : Z) : 2 ^ 1024 <= Z.abs z -> float_of_int z = None.
Proof.
  intros Hz. unfold float_of_int.
  assert (forall m, 2 ^ 1024 <= Z.pos m -> 1024 < Z.pos (digits2_pos m)) as Hd.
  { intros m Hm. pose proof (digits2_pos_bounds m) as [_ B].
    apply pow2_lt_inv; lia. }
  destruct z as [|m|m]; simpl binary_normalize.
  - simpl in Hz. pose proof (Z.pow_pos_nonneg 2 1024). lia.
  - rewrite binary_round_overflow by (apply Hd; exact Hz). reflexivity.
  - rewrite binary_round_overflow by (apply Hd; exact Hz). reflexivity.
Qed.

(** An integer too long for the f-string is too large for a float. *)
Lemma float_of_int_unfit (z : Z) : fits_str z = false -> float_of_int z = None.
Proof.
  unfold fits_str, max_str_digits. intros H. apply float_of_int_overflow.
  apply Z.ltb_ge in H.
  assert (2 ^ 1024 <= 10 ^ 4300) as L by (apply Z.leb_le; vm_compute; reflexivity).
  exact (Z.le_trans _ _ _ L H).
Qed.

(** ** The verdict *)

Lemma float_sub_diag (x : float) :
  finite x = true -> float_is_zero (x - x) = true.
Proof.
  unfold finite, float_is_zero. intros H.
  rewrite FloatAxioms.eqb_spec, FloatAxioms.sub_spec. unfold SF64sub, SFsub.
  destruct (Prim2SF x) as [sx| | |sx m e]; try discriminate.
  - destruct sx; reflexivity.
  - rewrite Z.min_id, Z.sub_diag. reflexivity.
Qed.

Lemma conclude_run (kb expected : Z) (ep client : nat) (start end_transfer : float)
    (s : St) :
  conclude kb expected ep client (Some start) end_transfer s =
  let actual := (end_transfer - start)%float in
  match float_of_int kb with
  | None => Raise OverflowError s
  | Some a =>
      if float_is_zero actual then Raise ZeroDivisionError s
      else if fits_str expected then
        let s3 := mark_killed client (mark_killed ep
                    (say (Speed (a / actual)) (say (Took actual expected) s))) in
        match fs s !! [test_dir kb] with
        | Some Dir =>
            let s4 := set_fs (filter (fun kv => ~ [test_dir kb] `prefix_of` kv.1)) s3 in
            match float_of_int expected with
            | None => Raise OverflowError s4
            | Some x =>
                if float_ge actual (x * 0.8) then
                  Done true (say (Text "SUCCESS: Rate limiting works!") s4)
                else
                  Done false (say (Text "FAILURE: Rate limiting is not effective.") s4)
            end
        | _ => Raise OSError s3
        end
      else Raise ValueError s
  end.
Proof.
  unfold conclude, truediv, mul. cbv zeta.
  destruct (float_of_int kb) as [a|]; [|reflexivity].
  destruct (float_is_zero (end_transfer - start)); [reflexivity|].
  unfold report_took. destruct (fits_str expected); [|reflexivity].
  run_ops. simpl.
  destruct (fs s !! [test_dir kb]) as [[|d]|]; try reflexivity.
  destruct (float_of_int expected) as [x|]; [|reflexivity].
  simpl. destruct (float_ge (end_transfer - start) (x * 0.8)); reflexivity.
Qed.

(** [run_test] from the point where the transfer window is known. *)
Lemma run_test_measured (fuel : nat) (env : Env) (kb : Z) (limit : string)
    (expected : Z) (s s1 s2 : St) (ep client : nat) (start : option float)
    (end_transfer : float) :
  prepare env kb limit s = Done (Some (ep, client)) s1 ->
  await_transfer fuel env s1 = Done (start, end_transfer) s2 ->
  run_test fuel env kb limit expected s
    = conclude kb expected ep client start end_transfer s2 /\
  fs s2 !! [test_dir kb] = Some Dir.
Proof.
  intros Hprep Hawait. split.
  - unfold run_test. rewrite (bind_Done _ _ _ _ _ Hprep).
    rewrite bind_unfold, Hawait. reflexivity.
  - apply prepare_sent in Hprep as (D & _).
    apply await_transfer_frame in Hawait as (F & _). congruence.
Qed.

(** C3.  Once the command is sent, the sentinel seen and the throughput
    computed, [run_test] returns [True] exactly when
    [actual_duration >= expected_duration * 0.8], and [False] exactly when
    that comparison is false; the throughput [speed] is in neither. *)
Theorem verdict_is_the_duration_check (fuel : nat) (env : Env) (kb : Z)
    (limit : string) (expected : Z) (s s1 s2 : St) (ep client : nat)
    (start end_transfer speed : float) :
  prepare env kb limit s = Done (Some (ep, client)) s1 ->
  await_transfer fuel env s1 = Done (Some start, end_transfer) s2 ->
  returned (truediv kb (end_transfer - start) s2) = Some speed ->
  ((exists s', run_test fuel env kb limit expected s = Done true s') <->
   (exists x, float_of_int expected = Some x /\
              float_ge (end_transfer - start) (x * 0.8) = true)) /\
  ((exists s', run_test fuel env kb limit expected s = Done false s') <->
   (exists x, float_of_int expected = Some x /\
              float_ge (end_transfer - start) (x * 0.8) = false)).
Proof.
  intros Hprep Hawait Hspeed.
  destruct (run_test_measured fuel env kb limit expected _ _ _ _ _ _ _ Hprep Hawait)
    as [-> D].
  rewrite conclude_run. cbv zeta. rewrite D.
  unfold truediv in Hspeed.
  destruct (float_of_int kb) as [a|]; [|discriminate].
  destruct (float_is_zero (end_transfer - start)); [discriminate|].
  clear Hspeed.
  destruct (fits_str expected) eqn:Efit;
    [|rewrite (float_of_int_unfit _ Efit)];
    [destruct (float_of_int expected) as [x|]|].
  - destruct (float_ge (end_transfer - start) (x * 0.8)) eqn:G; split; split.
    all: try (intros [s' H]; discriminate H).
    all: try (intros (x' & [= <-] & H); congruence).
    all: eauto.
  - split; split.
    all: try (intros [s' H]; discriminate H).
    all: intros (x' & H & _); discriminate H.
  - split; split.
    all: try (intros [s' H]; discriminate H).
    all: intros (x' & H & _); discriminate H.
Qed.

Lemma verdict_is_the_duration_check_witness :
  ((exists s', run_test 3 steady_client 1 "10KB" 5 (boot sample_fs) = Done true s') <->
   (exists x, float_of_int 5 = Some x /\ float_ge (110 - 103) (x * 0.8) = true)) /\
  ((exists s', run_test 3 steady_client 1 "10KB" 5 (boot sample_fs) = Done false s') <->
   (exists x, float_of_int 5 = Some x /\ float_ge (110 - 103) (x * 0.8) = false)).
Proof.
  ran Hprep (prepare steady_client 1 "10KB" (boot sample_fs)) (Some (0%nat, 1%nat)).
  ran Hawait (await_transfer 3 steady_client
                (final (prepare steady_client 1 "10KB" (boot sample_fs))))
    (Some 103%float, 110%float).
  refine (verdict_is_the_duration_check 3 steady_client 1 "10KB" 5 _ _ _ _ _ _ _
            (1 / (110 - 103))%float Hprep Hawait _).
  vm_compute. reflexivity.
Defined.

(** C10.  Once the command is sent and the sentinel seen, [run_test] raises
    [ZeroDivisionError] when [end_transfer - start_transfer] is zero, as it
    is when the two readings of the clock are equal, and only then; no
    verdict is returned, and neither role process is killed nor the fixture
    removed: the state is the one the scan left. *)
Theorem zero_elapsed_raises (fuel : nat) (env : Env) (kb : Z) (limit : string)
    (expected : Z) (s s1 s2 : St) (ep client : nat) (start end_transfer a : float) :
  prepare env kb limit s = Done (Some (ep, client)) s1 ->
  await_transfer fuel env s1 = Done (Some start, end_transfer) s2 ->
  float_of_int kb = Some a ->
  (float_is_zero (end_transfer - start) = true ->
   run_test fuel env kb limit expected s = Raise ZeroDivisionError s2) /\
  (finite start = true -> end_transfer = start ->
   run_test fuel env kb limit expected s = Raise ZeroDivisionError s2) /\
  (float_is_zero (end_transfer - start) = false ->
   truediv kb (end_transfer - start) s2 = Done (a / (end_transfer - start))%float s2 /\
   forall s', run_test fuel env kb limit expected s <> Raise ZeroDivisionError s').
Proof.
  intros Hprep Hawait Ha.
  destruct (run_test_measured fuel env kb limit expected _ _ _ _ _ _ _ Hprep Hawait)
    as [-> D].
  rewrite conclude_run. cbv zeta. rewrite D, Ha. unfold truediv. rewrite Ha.
  split; [|split].
  - intros ->. reflexivity.
  - intros Hfin ->. rewrite float_sub_diag by exact Hfin. reflexivity.
  - intros ->. split; [reflexivity|].
    intros s'. destruct (fits_str expected); [|discriminate].
    destruct (float_of_int expected) as [x|]; [|discriminate].
    destruct (float_ge _ _); discriminate.
Qed.

Lemma zero_elapsed_raises_witness :
  (exists s2, run_test 3 instant_client 1 "10KB" 5 (boot sample_fs)
                = Raise ZeroDivisionError s2) /\
  (exists s2, truediv 1 (110 - 103) s2 = Done (1 / (110 - 103))%float s2 /\
     forall s', run_test 3 steady_client 1 "10KB" 5 (boot sample_fs)
                  <> Raise ZeroDivisionError s').
Proof.
  split.
  - ran Hprep (prepare instant_client 1 "10KB" (boot sample_fs)) (Some (0%nat, 1%nat)).
    ran Hawait (await_transfer 3 instant_client
                  (final (prepare instant_client 1 "10KB" (boot sample_fs))))
      (Some 103%float, 103%float).
    destruct (zero_elapsed_raises 3 instant_client 1 "10KB" 5 _ _ _ _ _ _ _ 1%float
                Hprep Hawait eq_refl) as (_ & Hsame & _).
    eexists. apply Hsame; vm_compute; reflexivity.
  - ran Hprep (prepare steady_client 1 "10KB" (boot sample_fs)) (Some (0%nat, 1%nat)).
    ran Hawait (await_transfer 3 steady_client
                  (final (prepare steady_client 1 "10KB" (boot sample_fs))))
      (Some 103%float, 110%float).
    destruct (zero_elapsed_raises 3 steady_client 1 "10KB" 5 _ _ _ _ _ _ _ 1%float
                Hprep Hawait eq_refl) as (_ & _ & Hpos).
    eexists. apply Hpos. vm_compute. reflexivity.
Defined.

(** C6.  When the client has exited at the liveness check, or the write of
    the command raises [BrokenPipeError], [run_test] returns [False]; what it
    prints ends with the client's captured output; it reads no line of the
    client's output and never reads the clock. *)
Theorem early_exit_or_broken_pipe_fails (fuel : nat) (env : Env) (kb : Z)
    (limit : string) (expected : Z) (s sp : St) :
  provision env kb (say (header kb limit) s) = Done tt sp ->
  poll_results env (k_poll s) <> None \/ write_results env (k_write s) = true ->
  exists s',
    run_test fuel env kb limit expected s = Done false s' /\
    out s' = out s ++ header kb limit ::
               match poll_results env (k_poll s) with
               | Some returncode =>
                   [Text ("Wrapper exited early with code " +:+ pretty returncode)]
               | None =>
                   [Text "Requesting file...";
                    Text "Broken pipe when sending command. Wrapper output:"]
               end ++ [Text (read_results env (k_read s))] /\
    k_readline s' = k_readline s /\ k_time s' = k_time s.
Proof.
  intros Hprov Hcase. unfold run_test, prepare.
  rewrite bind_unfold. unfold print at 1, modify at 1.
  rewrite bind_unfold. rewrite bind_unfold, Hprov.
  apply provision_frame in Hprov as [_ Ip]. unfold io in Ip. simpl in Ip.
  injection Ip as P1 P2 P3 P4 P5 P6 P7.
  destruct (start_roles_run kb limit sp)
    as (sr & Hr & F1 & F2 & F3 & F4 & F5 & F6 & F7 & _).
  rewrite (bind_Done _ _ _ _ _ Hr). rewrite bind_unfold, request_file_run.
  rewrite F3, F4, F5, P3, P4, P5.
  destruct (poll_results env (k_poll s)) as [code|] eqn:Epoll.
  - eexists. split; [reflexivity|]. simpl.
    rewrite F2, P2, F6, F7, P6, P7, <- !app_assoc. auto.
  - destruct Hcase as [Hcase| ->]; [congruence|].
    eexists. split; [reflexivity|]. simpl.
    rewrite F2, P2, F6, F7, P6, P7, <- !app_assoc. auto.
Qed.

Lemma early_exit_or_broken_pipe_fails_witness :
  (exists s', run_test 0 dead_client 1 "10KB" 5 (boot sample_fs) = Done false s' /\
     out s' = [header 1 "10KB"; Text "Wrapper exited early with code 1";
               Text ("dial tcp: connection refused" +:+ nl)]) /\
  (exists s', run_test 0 deaf_client 1 "10KB" 5 (boot sample_fs) = Done false s' /\
     out s' = [header 1 "10KB"; Text "Requesting file...";
               Text "Broken pipe when sending command. Wrapper output:";
               Text ("stdin closed" +:+ nl)]).
Proof.
  split.
  - ran Hprov (provision dead_client 1 (say (header 1 "10KB") (boot sample_fs))) tt.
    destruct (early_exit_or_broken_pipe_fails 0 dead_client 1 "10KB" 5 _ _ Hprov)
      as (s' & Hrun & Hout & _).
    { left. discriminate. }
    exists s'. split; [exact Hrun|exact Hout].
  - ran Hprov (provision deaf_client 1 (say (header 1 "10KB") (boot sample_fs))) tt.
    destruct (early_exit_or_broken_pipe_fails 0 deaf_client 1 "10KB" 5 _ _ Hprov)
      as (s' & Hrun & Hout & _).
    { right. reflexivity. }
    exists s'. split; [exact Hrun|exact Hout].
Defined.

(** C7.  When both calls of [run_test] return, the second is made in the
    state the first one left, whatever the first returned, and the process
    exits with 0 when both returned [True] and with 1 otherwise. *)
Theorem main_exit_code (fuel : nat) (env : Env) (s s1 s2 : St) (b1 b2 : bool) :
  run_test fuel env 50 "10KB" 5 s = Done b1 s1 ->
  run_test fuel env 150 "30KB" 5 s1 = Done b2 s2 ->
  main fuel env s
    = Done (if b1 && b2 then 0 else 1)
           (say (Text (nl +:+ (if b1 && b2 then "ALL TESTS PASSED"
                               else "SOME TESTS FAILED"))) s2).
Proof.
  intros H1 H2. unfold main.
  rewrite (bind_Done _ _ _ _ _ H1). rewrite (bind_Done _ _ _ _ _ H2).
  destruct b1, b2; reflexivity.
Qed.


Lemma main_exit_code_witness :
  returned (run_test 2 one_dead_one_good 50 "10KB" 5 (boot sample_fs)) = Some false /\
  returned (main 2 one_dead_one_good (boot sample_fs)) = Some 1 /\
  (s ← state_after (main 2 one_dead_one_good (boot sample_fs));
   Some (length (procs s), last (out s)))
    = Some (6%nat, Some (Text (nl +:+ "SOME TESTS FAILED"))).
Proof.
  ran H1 (run_test 2 one_dead_one_good 50 "10KB" 5 (boot sample_fs)) false.
  ran H2 (run_test 2 one_dead_one_good 150 "30KB" 5
            (final (run_test 2 one_dead_one_good 50 "10KB" 5 (boot sample_fs)))) true.
  split; [vm_compute; reflexivity|].
  rewrite (main_exit_code _ _ _ _ _ _ _ H1 H2).
  split; vm_compute; reflexivity.
Defined.

(** ** The fixture, forwards *)

Lemma cleared_below (d : string) (f : gmap path node) (p : path) :
  cleared d f !! (d :: p) = None.
Proof.
  apply map_lookup_filter_None_2. right. intros x _ Hnot. apply Hnot.
  simpl. exists p. reflexivity.
Qed.

Lemma cleared_elsewhere (d : string) (f : gmap path node) (p : path) :
  ~ [d] `prefix_of` p -> cleared d f !! p = f !! p.
Proof.
  intros Hp. destruct (f !! p) as [x|] eqn:E.
  - apply map_lookup_filter_Some_2; [exact E|exact Hp].
  - apply map_lookup_filter_None_2. left. exact E.
Qed.

Lemma cleared_absent (d : string) (f : gmap path node) :
  wf_fs f -> f !! [d] = None -> cleared d f = f.
Proof.
  intros Hwf Hd. apply map_eq. intros p.
  destruct (decide ([d] `prefix_of` p)) as [[q ->]|Hp].
  - simpl. rewrite cleared_below. symmetry. apply wf_fs_absent; assumption.
  - apply cleared_elsewhere. exact Hp.
Qed.

Lemma mkdir_new (p : path) (s : St) :
  fs s !! p = None -> mkdir_exist_ok p s = Done tt (set_fs (insert p Dir) s).
Proof. unfold mkdir_exist_ok. intros ->. reflexivity. Qed.

Lemma mkdir_old (p : path) (s : St) :
  fs s !! p = Some Dir -> mkdir_exist_ok p s = Done tt s.
Proof. unfold mkdir_exist_ok. intros ->. reflexivity. Qed.

Lemma open_w_new (a b c : string) (s : St) :
  fs s !! [a; b] = Some Dir -> fs s !! [a; b; c] = None ->
  open_w [a; b; c] s = Done tt (set_fs (insert [a; b; c] (File [])) s).
Proof.
  intros HD Hp. unfold open_w.
  change (removelast [a; b; c]) with [a; b]. cbv iota. rewrite HD, Hp.
  reflexivity.
Qed.

Lemma read_text_file (p : path) (d : list byte) (t : text) (s : St) :
  fs s !! p = Some (File d) -> decode_utf8 d = Some t ->
  read_text p s = Done (universal_newlines t) s.
Proof. unfold read_text. intros -> ->. reflexivity. Qed.

Lemma f_write_text_run (p : path) (t : text) (data : list byte) :
  encode_utf8 t = Some data -> f_write_text p t = f_write p data.
Proof. unfold f_write_text. intros ->. reflexivity. Qed.

(** The sizes [os.urandom] accepts, in KB. *)
Lemma kb_in_range (kb : Z) :
  - 2 ^ 53 <= kb < 2 ^ 53 ->
  (kb * 1024 <? - 2 ^ 63) || (2 ^ 63 - 34 <? kb * 1024) = false.
Proof.
  change (2 ^ 53) with 9007199254740992.
  change (2 ^ 63) with 9223372036854775808. lia.
Qed.

Lemma urandom_run (env : Env) (kb : Z) (s : St) :
  0 <= kb < 2 ^ 53 ->
  urandom env (kb * 1024) s
    = Done (map (entropy env) (seq (k_entropy s) (Z.to_nat (kb * 1024))))
           (tick_entropy (Z.to_nat (kb * 1024)) s).
Proof.
  intros Hn. unfold urandom. rewrite kb_in_range by lia.
  destruct (kb * 1024 <? 0) eqn:E; [lia|reflexivity].
Qed.

(** ** The text of the credential

    What [decode_utf8] returns, [encode_utf8] takes back: the code points
    are scalar values, and stay so through the newline translation and
    [strip]. *)

Lemma encode_char_scalar (c : N) : scalar c = true -> is_Some (encode_char c).
Proof.
  unfold scalar, encode_char. intros H.
  destruct (c <? 0x80)%N eqn:E1; [eauto|].
  destruct (c <? 0x800)%N eqn:E2; [eauto|].
  destruct (c <? 0x10000)%N eqn:E3.
  - destruct ((0xD800 <=? c) && (c <=? 0xDFFF))%N eqn:E4; [lia|eauto].
  - destruct (c <? 0x110000)%N eqn:E5; [eauto|lia].
Qed.

Lemma encode_utf8_scalar (t : list N) :
  Forall (fun c => scalar c = true) t -> is_Some (encode_utf8 t).
Proof.
  induction 1 as [|c t Hc _ IH]; simpl; [eauto|].
  destruct (encode_char_scalar c Hc) as [bs ->]. destruct IH as [r ->]. eauto.
Qed.

Lemma decode_utf8_cons (b0 : byte) (r0 : list byte) :
  decode_utf8 (b0 :: r0) =
      let a := Byte.to_N b0 in
      if (a <? 0x80)%N then cons a <$> decode_utf8 r0
      else if ((0xC2 <=? a) && (a <=? 0xDF))%N then
        match r0 with
        | b1 :: r1 =>
            let b := Byte.to_N b1 in
            if continuation b
            then cons ((a - 0xC0) * 64 + (b - 0x80))%N <$> decode_utf8 r1
            else None
        | _ => None
        end
      else if ((0xE0 <=? a) && (a <=? 0xEF))%N then
        match r0 with
        | b1 :: b2 :: r2 =>
            let b := Byte.to_N b1 in
            let c := Byte.to_N b2 in
            if second_of_3 a b && continuation c
            then cons ((a - 0xE0) * 4096 + (b - 0x80) * 64 + (c - 0x80))%N
                   <$> decode_utf8 r2
            else None
        | _ => None
        end
      else if ((0xF0 <=? a) && (a <=? 0xF4))%N then
        match r0 with
        | b1 :: b2 :: b3 :: r3 =>
            let b := Byte.to_N b1 in
            let c := Byte.to_N b2 in
            let d := Byte.to_N b3 in
            if second_of_4 a b && continuation c && continuation d
            then cons ((a - 0xF0) * 262144 + (b - 0x80) * 4096
                       + (c - 0x80) * 64 + (d - 0x80))%N
                   <$> decode_utf8 r3
            else None
        | _ => None
        end
      else None.
Proof. reflexivity. Qed.

Lemma decode_utf8_scalar (n : nat) : forall (bs : list byte) (t : list N),
  (length bs < n)%nat -> decode_utf8 bs = Some t ->
  Forall (fun c => scalar c = true) t.
Proof.
  induction n as [|n IH]; intros bs t Hn H; [lia|].
  destruct bs as [|b0 r0]; [injection H as <-; constructor|].
  rewrite decode_utf8_cons in H. cbv zeta in H. simpl in Hn.
  assert (forall x r t, (length r < n)%nat -> scalar x = true ->
            cons x <$> decode_utf8 r = Some t ->
            Forall (fun c => scalar c = true) t) as Hstep.
  { intros x r t' Hr Hx Ht. destruct (decode_utf8 r) as [t0|] eqn:E; [|discriminate].
    injection Ht as <-. constructor; [exact Hx|]. exact (IH r t0 Hr E). }
  destruct (Byte.to_N b0 <? 0x80)%N eqn:E1.
  { refine (Hstep _ _ _ _ _ H); [lia|unfold scalar; lia]. }
  destruct ((0xC2 <=? Byte.to_N b0) && (Byte.to_N b0 <=? 0xDF))%N eqn:E2.
  { destruct r0 as [|b1 r1]; [discriminate|].
    unfold continuation in H.
    destruct ((0x80 <=? Byte.to_N b1) && (Byte.to_N b1 <=? 0xBF))%N eqn:C1;
      [|discriminate].
    simpl in Hn.
    refine (Hstep _ _ _ _ _ H); [lia|unfold scalar; lia]. }
  destruct ((0xE0 <=? Byte.to_N b0) && (Byte.to_N b0 <=? 0xEF))%N eqn:E3.
  { destruct r0 as [|b1 [|b2 r2]]; try discriminate.
    unfold second_of_3, continuation in H. simpl in Hn.
    destruct (Byte.to_N b0 =? 0xE0)%N eqn:L1;
      [|destruct (Byte.to_N b0 =? 0xED)%N eqn:L2].
    all: match type of H with
         | (if ?c then _ else _) = _ => destruct c eqn:C1; [|discriminate]
         end.
    all: refine (Hstep _ _ _ _ _ H); [lia|unfold scalar; lia]. }
  destruct ((0xF0 <=? Byte.to_N b0) && (Byte.to_N b0 <=? 0xF4))%N eqn:E4;
    [|discriminate].
  destruct r0 as [|b1 [|b2 [|b3 r3]]]; try discriminate.
  unfold second_of_4, continuation in H. simpl in Hn.
  destruct (Byte.to_N b0 =? 0xF0)%N eqn:L1;
    [|destruct (Byte.to_N b0 =? 0xF4)%N eqn:L2].
  all: match type of H with
       | (if ?c then _ else _) = _ => destruct c eqn:C1; [|discriminate]
       end.
  all: refine (Hstep _ _ _ _ _ H); [lia|unfold scalar; lia].
Qed.

Lemma lstrip_scalar (t : list N) :
  Forall (fun c => scalar c = true) t -> Forall (fun c => scalar c = true) (lstrip t).
Proof.
  induction 1 as [|c t Hc Ht IH]; simpl; [constructor|].
  destruct (isspace c); [exact IH|constructor; assumption].
Qed.

Lemma rstrip_scalar (t : list N) :
  Forall (fun c => scalar c = true) t -> Forall (fun c => scalar c = true) (rstrip t).
Proof.
  induction 1 as [|c t Hc Ht IH]; simpl; [constructor|].
  destruct (rstrip t) as [|c' r].
  - destruct (isspace c); repeat constructor. exact Hc.
  - constructor; assumption.
Qed.

Lemma universal_newlines_scalar (n : nat) : forall t : list N,
  (length t < n)%nat ->
  Forall (fun c => scalar c = true) t ->
  Forall (fun c => scalar c = true) (universal_newlines t).
Proof.
  induction n as [|n IH]; intros t Hn Ht; [lia|].
  destruct Ht as [|c t Hc Ht]; [constructor|]. simpl in Hn. simpl.
  destruct (c =? 13)%N.
  - destruct Ht as [|c' t' Hc' Ht']; [repeat constructor|]. simpl in Hn.
    destruct (c' =? 10)%N; (constructor; [reflexivity|]); apply IH;
      try (simpl; lia); [exact Ht'|constructor; assumption].
  - constructor; [exact Hc|]. apply IH; [lia|exact Ht].
Qed.

(** Three templates: a UTF-8 no-break space at the end is white space and
    goes; the same character in Latin-1 is no UTF-8; CR LF and CR inside the
    key become LF, and the white space at both ends goes. *)
Lemma credential_samples :
  credential (list_byte_of_string "key" ++ [xc2; xa0])
    = Some (list_byte_of_string "key") /\
  credential (list_byte_of_string "key" ++ [xa0]) = None /\
  credential [x20; x6b; x0d; x0a; x65; x0d; x79; x0a]
    = Some [x6b; x0a; x65; x0a; x79].
Proof. repeat split; vm_compute; reflexivity. Qed.

Lemma credential_total (key : list byte) :
  is_Some (decode_utf8 key) -> is_Some (credential key).
Proof.
  intros [t H]. unfold credential. rewrite H. simpl.
  apply (decode_utf8_scalar (S (length key))) in H; [|lia].
  apply (universal_newlines_scalar (S (length t))) in H; [|lia].
  apply lstrip_scalar, rstrip_scalar, encode_utf8_scalar in H. exact H.
Qed.

Lemma below_ne_template (kb : Z) (p : path) : test_dir kb :: p <> template_path.
Proof.
  unfold template_path. intros H. apply (test_dir_not_tests kb). congruence.
Qed.

(** Lookups in a file system built by inserts and alters at known paths. *)
Ltac fs_look :=
  cbn [set_fs tick_entropy fs procs out k_entropy k_poll k_write k_read
       k_readline k_time];
  repeat first
    [ rewrite lookup_insert_eq
    | rewrite lookup_insert_ne by first [done | apply below_ne_template]
    | rewrite lookup_alter_eq
    | rewrite lookup_alter_ne by first [done | apply below_ne_template] ];
  auto.

(** Keep the state a record. *)
Ltac flat :=
  cbn [set_fs tick_entropy fs procs out k_entropy k_poll k_write k_read
       k_readline k_time].

(** Run the next operation by the equation [lem]. *)
Ltac fwd lem :=
  rewrite bind_unfold; rewrite lem; [cbv beta iota; flat|fs_look; try lia..].

Lemma write_fixture_run (env : Env) (kb : Z) (key cred : list byte) (s : St) :
  0 <= kb < 2 ^ 53 ->
  (forall p, fs s !! (test_dir kb :: p) = None) ->
  fs s !! template_path = Some (File key) ->
  credential key = Some cred ->
  exists s', write_fixture env kb s = Done tt s' /\
    fs s' = fixture env kb (k_entropy s) cred (fs s) /\ io s' = io s.
Proof.
  intros Hkb Hfree Hkey Hcred.
  unfold credential in Hcred.
  destruct (decode_utf8 key) as [t|] eqn:Hdec; [|discriminate]. simpl in Hcred.
  destruct s as [F P O ke kp kw kr krl kt]. simpl in Hfree, Hkey. flat.
  unfold write_fixture, makedirs, payload_path. simpl makedirs_from.
  rewrite bind_unfold. fwd mkdir_new. fwd mkdir_new.
  unfold mret at 1, M_ret at 1. cbv beta iota.
  rewrite bind_unfold. fwd mkdir_old. fwd mkdir_new.
  unfold mret at 1, M_ret at 1. cbv beta iota.
  fwd open_w_new.
  fwd urandom_run.
  rewrite bind_unfold. unfold f_write at 1, modify at 1. cbv beta iota. flat.
  fwd (read_text_file template_path key t).
  cbv zeta. rewrite !(f_write_text_run _ _ _ Hcred).
  fwd open_w_new.
  rewrite bind_unfold. unfold f_write at 1, modify at 1. cbv beta iota. flat.
  fwd open_w_new.
  unfold f_write, modify. flat.
  eexists. split; [reflexivity|]. split; [|reflexivity].
  unfold fixture, payload_path. flat.
  rewrite !alter_insert_eq. reflexivity.
Qed.

Lemma remove_stale_run (kb : Z) (s : St) :
  wf_fs (fs s) ->
  (forall x, fs s !! [test_dir kb] <> Some (File x)) ->
  exists s1, remove_stale kb s = Done tt s1 /\
    fs s1 = cleared (test_dir kb) (fs s) /\ io s1 = io s /\
    k_entropy s1 = k_entropy s.
Proof.
  intros Hwf Hnofile. unfold remove_stale.
  rewrite bind_unfold. unfold os_path_exists, gets, rmtree.
  destruct (fs s !! [test_dir kb]) as [[|x]|] eqn:E.
  - cbv beta iota. rewrite E. eexists. split; [reflexivity|]. auto.
  - destruct (Hnofile x). reflexivity.
  - exists s. split; [reflexivity|]. rewrite cleared_absent by assumption. auto.
Qed.

(** C9.  In a file system that is a tree, holds a template key that is
    UTF-8 and has no regular file in the fixture's place, [provision], for a
    size from 0 to below 2^53 KB (the [bytes] that [os.urandom] can
    return), returns; the payload file then holds [file_size_kb * 1024]
    bytes, both credential files hold the same bytes, the stripped text of
    the template key, nothing else is left below the fixture directory, and
    nothing outside it has changed. *)
Theorem provision_builds_fixture (env : Env) (kb : Z) (key : list byte) (s : St) :
  wf_fs (fs s) ->
  0 <= kb < 2 ^ 53 ->
  fs s !! template_path = Some (File key) ->
  is_Some (decode_utf8 key) ->
  (forall x, fs s !! [test_dir kb] <> Some (File x)) ->
  exists s' data cred,
    provision env kb s = Done tt s' /\
    fs s' !! payload_path kb = Some (File data) /\
    Z.of_nat (length data) = kb * 1024 /\
    credential key = Some cred /\
    fs s' !! [test_dir kb; "users"; "maurits"] = Some (File cred) /\
    fs s' !! [test_dir kb; "users"; "myroom"] = Some (File cred) /\
    (forall p, [test_dir kb] `prefix_of` p -> p ∉ fixture_paths kb ->
               fs s' !! p = None) /\
    (forall p, ~ [test_dir kb] `prefix_of` p -> fs s' !! p = fs s !! p).
Proof.
  intros Hwf Hkb Hkey Hutf Hnofile.
  destruct (credential_total key Hutf) as [cred Hcred].
  destruct (remove_stale_run kb s Hwf Hnofile) as (s1 & H1 & F1 & _ & E1).
  destruct (write_fixture_run env kb key cred s1 Hkb) as (s' & H2 & F2 & _).
  { intros p. rewrite F1. apply cleared_below. }
  { rewrite F1, cleared_elsewhere; [exact Hkey|].
    intros [q Hq]. exact (below_ne_template kb q (eq_sym Hq)). }
  { exact Hcred. }
  exists s', (map (entropy env) (seq (k_entropy s) (Z.to_nat (kb * 1024)))), cred.
  split.
  { unfold provision. rewrite (bind_Done _ _ _ _ _ H1). exact H2. }
  rewrite F2, F1, E1. unfold fixture, payload_path.
  repeat split.
  - fs_look.
  - rewrite length_map, length_seq. lia.
  - exact Hcred.
  - fs_look.
  - fs_look.
  - intros p [q ->] Hp. unfold fixture_paths, payload_path in Hp.
    rewrite !not_elem_of_cons in Hp. destruct Hp as (N1 & N2 & N3 & N4 & N5 & N6 & _).
    rewrite !lookup_insert_ne by congruence. apply cleared_below.
  - intros p Hp.
    assert (forall q, test_dir kb :: q <> p) as Hne.
    { intros q <-. apply Hp. exists q. reflexivity. }
    rewrite !lookup_insert_ne by apply Hne. apply cleared_elsewhere. exact Hp.
Qed.

Lemma wf_fsb_wf_fs (f : gmap path node) : wf_fsb f = true -> wf_fs f.
Proof.
  unfold wf_fsb. intros H p c Hp [x Hx].
  rewrite forallb_forall in H.
  apply elem_of_map_to_list, list_elem_of_In, H in Hx. simpl in Hx.
  rewrite removelast_last in Hx. destruct p as [|a p]; [done|].
  destruct (f !! (a :: p)) as [[|?]|]; done.
Qed.

Lemma provision_builds_fixture_witness :
  exists s' data,
    provision hung_client 2 (boot sample_fs) = Done tt s' /\
    fs s' !! payload_path 2 = Some (File data) /\
    Z.of_nat (length data) = 2 * 1024 /\
    fs s' !! [test_dir 2; "users"; "maurits"]
      = Some (File (list_byte_of_string "ssh-ed25519 AAAAC3Nz maurits@host")) /\
    fs s' !! [test_dir 2; "users"; "myroom"]
      = Some (File (list_byte_of_string "ssh-ed25519 AAAAC3Nz maurits@host")).
Proof.
  destruct (provision_builds_fixture hung_client 2
              (list_byte_of_string ("ssh-ed25519 AAAAC3Nz maurits@host" +:+ nl))
              (boot sample_fs))
    as (s' & data & cred & H & P & L & C & K1 & K2 & _).
  - apply wf_fsb_wf_fs. vm_compute. reflexivity.
  - split; [lia|reflexivity].
  - vm_compute. reflexivity.
  - vm_compute. eexists. reflexivity.
  - intros x. vm_compute. discriminate.
  - vm_compute in C. injection C as <-.
    exists s', data. repeat split; assumption.
Defined.

(** ** Cleanup *)

Lemma both_killed (n : nat) (l : list proc) (s : St) :
  (S n < length l)%nat ->
  procs s = alter (fun p => {| argv := argv p; killed := true |}) (S n)
              (alter (fun p => {| argv := argv p; killed := true |}) n l) ->
  is_killed n s /\ is_killed (S n) s.
Proof.
  intros Hlen Hs. unfold is_killed. rewrite Hs.
  destruct (lookup_lt_is_Some_2 l n) as [p Hp]; [lia|].
  destruct (lookup_lt_is_Some_2 l (S n)) as [q Hq]; [lia|].
  split.
  - rewrite list_lookup_alter_ne by lia. rewrite list_lookup_alter_eq, Hp.
    reflexivity.
  - rewrite list_lookup_alter_eq. rewrite list_lookup_alter_ne by lia.
    rewrite Hq. reflexivity.
Qed.

(** The two ways out of [prepare]. *)
Lemma prepare_cases (env : Env) (kb : Z) (limit : string) (s s1 : St)
    (o : option (nat * nat)) :
  prepare env kb limit s = Done o s1 ->
  exists l, (S (length (procs s)) < length l)%nat /\
    fs s1 !! [test_dir kb] = Some Dir /\
    ((o = None /\
      procs s1 = alter (fun p => {| argv := argv p; killed := true |})
                   (S (length (procs s)))
                   (alter (fun p => {| argv := argv p; killed := true |})
                      (length (procs s)) l)) \/
     (o = Some (length (procs s), S (length (procs s))) /\ procs s1 = l)).
Proof.
  unfold prepare. intros H.
  apply bind_Done_inv in H as ([] & s0 & H0 & H). injection H0 as <-.
  apply bind_Done_inv in H as ([] & sp & Hp & H).
  apply provision_frame in Hp as [Dp Ip]. unfold io in Ip. simpl in Ip.
  injection Ip as P1 P2 P3 P4 P5 P6 P7.
  destruct (start_roles_run kb limit sp)
    as (sr & Hr & F1 & F2 & F3 & F4 & F5 & F6 & F7 & F8 & F9).
  rewrite (bind_Done _ _ _ _ _ Hr) in H.
  rewrite bind_unfold, request_file_run in H.
  exists (procs sr). rewrite P1 in F8. split; [lia|].
  rewrite P1 in H.
  destruct (poll_results env (k_poll sr)) as [code|];
    [|destruct (write_results env (k_write sr))];
    injection H as <- <-; simpl; (split; [congruence|]); auto.
Qed.

(** X1.  Every return of [run_test], whatever the verdict or the reason of
    an early return, finds the entrypoint and the room killed. *)
Lemma roles_killed_on_return (fuel : nat) (env : Env) (kb : Z) (limit : string)
    (expected : Z) (s s' : St) (b : bool) :
  run_test fuel env kb limit expected s = Done b s' ->
  is_killed (length (procs s)) s' /\ is_killed (S (length (procs s))) s'.
Proof.
  unfold run_test. intros H.
  apply bind_Done_inv in H as (o & s1 & Hprep & H).
  apply prepare_cases in Hprep as (l & Hlen & _ & [[-> Hprocs]|[-> Hprocs]]).
  - injection H as _ <-. exact (both_killed _ l _ Hlen Hprocs).
  - apply bind_Done_inv in H as ([start end_transfer] & s2 & Hawait & H).
    apply await_transfer_frame in Hawait as [_ P2].
    apply (both_killed _ l _ Hlen). rewrite <- Hprocs, <- P2.
    destruct start as [start|].
    + rewrite conclude_run in H. cbv zeta in H.
      destruct (float_of_int kb); [|discriminate].
      destruct (float_is_zero _); [discriminate|].
      destruct (fits_str expected); [|discriminate].
      destruct (fs s2 !! [test_dir kb]) as [[|?]|]; try discriminate.
      destruct (float_of_int expected); [|discriminate].
      destruct (float_ge _ _); injection H as _ <-; reflexivity.
    + injection H as _ <-. reflexivity.
Qed.

(** The verdict path removes the fixture. *)
Lemma verdict_removes_fixture (fuel : nat) (env : Env) (kb : Z) (limit : string)
    (expected : Z) (s s1 s2 s' : St) (ep client : nat) (start end_transfer : float)
    (b : bool) :
  prepare env kb limit s = Done (Some (ep, client)) s1 ->
  await_transfer fuel env s1 = Done (Some start, end_transfer) s2 ->
  run_test fuel env kb limit expected s = Done b s' ->
  forall p, fs s' !! (test_dir kb :: p) = None.
Proof.
  intros Hprep Hawait.
  destruct (run_test_measured fuel env kb limit expected _ _ _ _ _ _ _ Hprep Hawait)
    as [-> D].
  rewrite conclude_run. cbv zeta. rewrite D.
  destruct (float_of_int kb); [|discriminate].
  destruct (float_is_zero _); [discriminate|].
  destruct (fits_str expected); [|discriminate].
  destruct (float_of_int expected); [|discriminate].
  destruct (float_ge _ _); intros [= _ <-] p; apply cleared_below.
Qed.

(** X4.  The three early returns (client gone at the liveness check, broken
    pipe, no trigger) return [False] and leave the fixture directory in
    place. *)
Lemma abort_leaves_fixture (fuel : nat) (env : Env) (kb : Z) (limit : string)
    (expected : Z) (s s1 : St) :
  prepare env kb limit s = Done None s1 \/
  (exists ep client end_transfer s2,
     prepare env kb limit s = Done (Some (ep, client)) s1 /\
     await_transfer fuel env s1 = Done (None, end_transfer) s2) ->
  exists s', run_test fuel env kb limit expected s = Done false s' /\
    fs s' !! [test_dir kb] = Some Dir.
Proof.
  intros [Hprep|(ep & client & end_transfer & s2 & Hprep & Hawait)].
  - exists s1. unfold run_test. rewrite (bind_Done _ _ _ _ _ Hprep).
    split; [reflexivity|].
    apply prepare_cases in Hprep as (_ & _ & D & _). exact D.
  - destruct (run_test_measured fuel env kb limit expected _ _ _ _ _ _ _ Hprep Hawait)
      as [-> D].
    eexists. split; [reflexivity|]. exact D.
Qed.

(** C1.  On the early exit of the client, on a broken pipe and on a missing
    trigger, [run_test] returns [False] with the entrypoint and the room
    killed, and with the fixture directory and its 51200-byte payload still
    there; a failed duration check, like a passed one, removes them. *)
Theorem fixture_survives_the_early_returns :
  leftovers dead_client = Some (false, true, Some 51200, [true; true; false]) /\
  leftovers deaf_client = Some (false, true, Some 51200, [true; true; false]) /\
  leftovers silent_client = Some (false, true, Some 51200, [true; true; false]) /\
  leftovers unthrottled_client = Some (false, false, None, [true; true; false]) /\
  leftovers steady_client = Some (true, false, None, [true; true; false]).
Proof. repeat split; vm_compute; reflexivity. Qed.

Lemma no_trigger_fails_witness :
  returned (run_test 3 silent_client 1 "10KB" 5 (boot sample_fs)) = Some false /\
  (s ← state_after (run_test 3 silent_client 1 "10KB" 5 (boot sample_fs));
   last (out s)) = Some (Text "Failed to trigger download").
Proof.
  ran Hprep (prepare silent_client 1 "10KB" (boot sample_fs)) (Some (0%nat, 1%nat)).
  ran Hawait (await_transfer 3 silent_client
                (final (prepare silent_client 1 "10KB" (boot sample_fs))))
    (@None float, 12%float).
  rewrite (no_trigger_fails 3 silent_client 1 "10KB" 5 _ _ _ _ _ _ Hprep Hawait).
  split; [reflexivity|]. simpl. rewrite last_snoc. reflexivity.
Defined.

(** * Further properties of the harness *)

Lemma roles_killed_on_return_witness :
  is_killed 0 (final (run_test 3 unthrottled_client 1 "10KB" 5 (boot sample_fs))) /\
  is_killed 1 (final (run_test 3 unthrottled_client 1 "10KB" 5 (boot sample_fs))).
Proof.
  ran H (run_test 3 unthrottled_client 1 "10KB" 5 (boot sample_fs)) false.
  exact (roles_killed_on_return _ _ _ _ _ _ _ _ H).
Defined.

(** X13.  Whatever the size, negative ones included, the entrypoint's port
    lies in 44322..44421, the room's port is the next one, and the room of
    one test gets the port of the entrypoint of another exactly when the
    sizes differ by one modulo 100. *)
Theorem ports_are_adjacent_and_bounded (a b : Z) :
  44322 <= ep_port a <= 44421 /\
  client_port a = ep_port a + 1 /\
  (client_port a = ep_port b <-> a mod 100 + 1 = b mod 100).
Proof.
  unfold ep_port, client_port.
  pose proof (Z.mod_pos_bound a 100 ltac:(lia)). lia.
Qed.

(** X12.  Unlike the ports, the names are one per size: two tests share the
    fixture directory, or the payload path, only if they have the same
    size. *)
Theorem fixture_names_are_one_per_size (a b : Z) :
  (test_dir a = test_dir b <-> a = b) /\
  (payload_path a = payload_path b <-> a = b).
Proof.
  assert (test_dir a = test_dir b -> a = b) as Hdir.
  { unfold test_dir. intros H. apply String.app_inj in H.
    exact (pretty_Z_inj _ _ H). }
  split; split; try (intros ->; reflexivity); [exact Hdir|].
  unfold payload_path. intros H.
  apply (f_equal (hd "")) in H. exact (Hdir H).
Qed.

(** X7.  An exception in a test case, or a test case that does not end, is
    the end of the main block: after the first, the second test is not run;
    after either, no summary line is printed and no exit code chosen. *)
Theorem main_stops_at_an_exception (fuel : nat) (env : Env) (s : St) :
  (forall e s1, run_test fuel env 50 "10KB" 5 s = Raise e s1 ->
                main fuel env s = Raise e s1) /\
  (run_test fuel env 50 "10KB" 5 s = OutOfFuel -> main fuel env s = OutOfFuel) /\
  (forall b1 s1, run_test fuel env 50 "10KB" 5 s = Done b1 s1 ->
     (forall e s2, run_test fuel env 150 "30KB" 5 s1 = Raise e s2 ->
                   main fuel env s = Raise e s2) /\
     (run_test fuel env 150 "30KB" 5 s1 = OutOfFuel -> main fuel env s = OutOfFuel)).
Proof.
  unfold main. repeat split.
  - intros e s1 H. rewrite bind_unfold, H. reflexivity.
  - intros H. rewrite bind_unfold, H. reflexivity.
  - intros e s2 H2. rewrite (bind_Done _ _ _ _ _ H). rewrite bind_unfold, H2.
    reflexivity.
  - intros H2. rewrite (bind_Done _ _ _ _ _ H). rewrite bind_unfold, H2.
    reflexivity.
Qed.

Lemma returned_Raise {A : Type} (r : res A) (e : exn) :
  (match r with Raise e' _ => Some e' | _ => None end) = Some e ->
  r = Raise e (final r).
Proof. destruct r; simpl; congruence. Qed.

Lemma main_stops_at_an_exception_witness :
  main 3 instant_client (boot sample_fs)
    = Raise ZeroDivisionError
        (final (run_test 3 instant_client 50 "10KB" 5 (boot sample_fs))) /\
  main 3 hung_client (boot sample_fs) = OutOfFuel.
Proof.
  split.
  - apply (main_stops_at_an_exception 3 instant_client (boot sample_fs)).
    apply returned_Raise. vm_compute. reflexivity.
  - apply (main_stops_at_an_exception 3 hung_client (boot sample_fs)).
    vm_compute. reflexivity.
Defined.

(** X11.  When a regular file stands where the fixture directory goes,
    [run_test] raises [OSError] from [shutil.rmtree] right after the header
    line: nothing is written and no process is started. *)
Theorem stale_file_stops_run_test (fuel : nat) (env : Env) (kb : Z)
    (limit : string) (expected : Z) (s : St) (x : list byte) :
  fs s !! [test_dir kb] = Some (File x) ->
  run_test fuel env kb limit expected s = Raise OSError (say (header kb limit) s).
Proof.
  intros H. unfold run_test, prepare, provision, remove_stale.
  rewrite !bind_unfold. unfold print at 1, modify at 1. cbv beta iota.
  change (fs s !! [test_dir kb] = Some (File x))
    with (fs (say (header kb limit) s) !! [test_dir kb] = Some (File x)) in H.
  generalize dependent (say (header kb limit) s). intros s0 H.
  rewrite !bind_unfold. unfold os_path_exists at 1, gets at 1.
  rewrite H. cbv beta iota. unfold rmtree. rewrite H. reflexivity.
Qed.

Lemma stale_file_stops_run_test_witness :
  run_test 3 steady_client 1 "10KB" 5 (boot blocked_fs)
    = Raise OSError (say (header 1 "10KB") (boot blocked_fs)).
Proof.
  apply (stale_file_stops_run_test 3 steady_client 1 "10KB" 5 (boot blocked_fs) []).
  vm_compute. reflexivity.
Defined.

(** ** The process table *)

Lemma start_roles_spawns (kb : Z) (limit : string) (s : St) :
  exists s' pe pc pw,
    start_roles kb limit s
      = Done (length (procs s), S (length (procs s)), S (S (length (procs s)))) s' /\
    procs s' = procs s ++ [pe; pc; pw] /\
    killed pe = false /\ killed pc = false /\ killed pw = false /\
    fs s' = fs s /\ k_poll s' = k_poll s /\ k_write s' = k_write s.
Proof.
  unfold start_roles. run_ops. unfold set_procs. simpl.
  rewrite !length_app. simpl.
  replace (length (procs s) + 1)%nat with (S (length (procs s))) by lia.
  replace (S (length (procs s)) + 1)%nat with (S (S (length (procs s)))) by lia.
  eexists _, _, _, _. split; [reflexivity|]. simpl.
  rewrite <- !app_assoc. simpl. repeat split; reflexivity.
Qed.

Lemma kill_two (l : list proc) (pe pc pw : proc) :
  alter (fun p => {| argv := argv p; killed := true |}) (S (length l))
    (alter (fun p => {| argv := argv p; killed := true |}) (length l)
       (l ++ [pe; pc; pw]))
  = l ++ [ {| argv := argv pe; killed := true |};
           {| argv := argv pc; killed := true |}; pw ].
Proof.
  replace (S (length l)) with (length l + 1)%nat by lia.
  replace (length l) with (length l + 0)%nat at 2 by lia.
  rewrite !alter_app_r. reflexivity.
Qed.

(** [prepare], through to the process table and the file system. *)
Lemma prepare_state (env : Env) (kb : Z) (limit : string) (s s1 : St)
    (o : option (nat * nat)) :
  prepare env kb limit s = Done o s1 ->
  exists sp pe pc pw,
    provision env kb (say (header kb limit) s) = Done tt sp /\
    fs s1 = fs sp /\
    killed pe = false /\ killed pc = false /\ killed pw = false /\
    ((o = None /\
      procs s1 = procs s ++ [ {| argv := argv pe; killed := true |};
                              {| argv := argv pc; killed := true |}; pw ]) \/
     (o = Some (length (procs s), S (length (procs s))) /\
      procs s1 = procs s ++ [pe; pc; pw])).
Proof.
  unfold prepare. intros H.
  apply bind_Done_inv in H as ([] & s0 & H0 & H). injection H0 as <-.
  apply bind_Done_inv in H as ([] & sp & Hp & H).
  pose proof Hp as Hp'.
  apply provision_frame in Hp' as [_ Ip]. unfold io in Ip. simpl in Ip.
  injection Ip as P1 _ _ _ _ _ _.
  destruct (start_roles_spawns kb limit sp)
    as (sr & pe & pc & pw & Hr & R1 & K1 & K2 & K3 & F1 & _).
  rewrite (bind_Done _ _ _ _ _ Hr) in H.
  rewrite bind_unfold, request_file_run in H.
  rewrite P1 in H, R1.
  exists sp, pe, pc, pw. split; [exact Hp|].
  destruct (poll_results env (k_poll sr)) as [code|];
    [|destruct (write_results env (k_write sr))];
    injection H as <- <-; simpl; rewrite ?R1, ?kill_two; auto 10.
Qed.

(** X2.  A call of [run_test] that returns has started three processes and
    touched no earlier one; of the three, the entrypoint and the room are
    killed, and the client never is. *)
Theorem client_is_never_killed (fuel : nat) (env : Env) (kb : Z) (limit : string)
    (expected : Z) (s s' : St) (b : bool) :
  run_test fuel env kb limit expected s = Done b s' ->
  exists pe pc pw,
    procs s' = procs s ++ [pe; pc; pw] /\
    killed pe = true /\ killed pc = true /\ killed pw = false.
Proof.
  unfold run_test. intros H.
  apply bind_Done_inv in H as (o & s1 & Hprep & H).
  apply prepare_state in Hprep
    as (sp & pe & pc & pw & _ & _ & K1 & K2 & K3 & [[-> Hprocs]|[-> Hprocs]]).
  - injection H as _ <-. rewrite Hprocs. eauto 10.
  - apply bind_Done_inv in H as ([start end_transfer] & s2 & Hawait & H).
    apply await_transfer_frame in Hawait as [_ P2].
    assert (procs s' = alter (fun p => {| argv := argv p; killed := true |})
                         (S (length (procs s)))
                         (alter (fun p => {| argv := argv p; killed := true |})
                            (length (procs s)) (procs s2))) as ->.
    { destruct start as [start|].
      - rewrite conclude_run in H. cbv zeta in H.
        destruct (float_of_int kb); [|discriminate].
        destruct (float_is_zero _); [discriminate|].
        destruct (fits_str expected); [|discriminate].
        destruct (fs s2 !! [test_dir kb]) as [[|?]|]; try discriminate.
        destruct (float_of_int expected); [|discriminate].
        destruct (float_ge _ _); injection H as _ <-; reflexivity.
      - injection H as _ <-. reflexivity. }
    rewrite P2, Hprocs, kill_two. eauto 10.
Qed.

Lemma client_is_never_killed_witness :
  exists pe pc pw,
    procs (final (run_test 3 steady_client 1 "10KB" 5 (boot sample_fs)))
      = procs (boot sample_fs) ++ [pe; pc; pw] /\
    killed pe = true /\ killed pc = true /\ killed pw = false.
Proof.
  ran H (run_test 3 steady_client 1 "10KB" 5 (boot sample_fs)) true.
  exact (client_is_never_killed _ _ _ _ _ _ _ _ H).
Defined.

(** X8.  When [run_test] raises [ZeroDivisionError] after the command was
    sent, the cleanup is skipped: the entrypoint and the room are not
    killed, and the fixture directory is still there. *)
Theorem zero_division_skips_cleanup (fuel : nat) (env : Env) (kb : Z)
    (limit : string) (expected : Z) (s s1 s' : St) (ep client : nat) :
  prepare env kb limit s = Done (Some (ep, client)) s1 ->
  run_test fuel env kb limit expected s = Raise ZeroDivisionError s' ->
  killed <$> procs s' !! ep = Some false /\
  killed <$> procs s' !! client = Some false /\
  fs s' !! [test_dir kb] = Some Dir.
Proof.
  intros Hprep H. unfold run_test in H.
  rewrite (bind_Done _ _ _ _ _ Hprep) in H. rewrite bind_unfold in H.
  destruct (await_transfer fuel env s1) as [[start end_transfer] s2|e s2|] eqn:Hawait;
    [| |discriminate].
  2: { rewrite await_transfer_run in Hawait.
       destruct (scan fuel env None _) as [r sx|e' sx|] eqn:E; try discriminate.
       destruct (scan_no_raise _ _ _ _ _ _ E). }
  destruct (run_test_measured fuel env kb limit expected _ _ _ _ _ _ _ Hprep Hawait)
    as [_ D].
  apply await_transfer_frame in Hawait as [_ P2].
  apply prepare_state in Hprep
    as (sp & pe & pc & pw & _ & _ & K1 & K2 & K3 & [[Ho _]|[Ho Hprocs]]);
    [discriminate|].
  injection Ho as -> ->.
  assert (s' = s2) as ->.
  { destruct start as [start|]; [|discriminate].
    rewrite conclude_run in H. cbv zeta in H. rewrite D in H.
    destruct (float_of_int kb); [|discriminate].
    destruct (float_is_zero _); [congruence|].
    destruct (fits_str expected); [|discriminate].
    destruct (float_of_int expected); [|discriminate].
    destruct (float_ge _ _); discriminate. }
  rewrite P2, Hprocs. repeat split; [| |exact D].
  - rewrite lookup_app_r by lia. rewrite Nat.sub_diag. simpl. congruence.
  - rewrite lookup_app_r by lia.
    replace (S (length (procs s)) - length (procs s))%nat with 1%nat by lia.
    simpl. congruence.
Qed.

Lemma zero_division_skips_cleanup_witness :
  killed <$> procs (final (run_test 3 instant_client 1 "10KB" 5 (boot sample_fs))) !! 0%nat
    = Some false /\
  killed <$> procs (final (run_test 3 instant_client 1 "10KB" 5 (boot sample_fs))) !! 1%nat
    = Some false /\
  fs (final (run_test 3 instant_client 1 "10KB" 5 (boot sample_fs))) !! [test_dir 1]
    = Some Dir.
Proof.
  ran Hprep (prepare instant_client 1 "10KB" (boot sample_fs)) (Some (0%nat, 1%nat)).
  refine (zero_division_skips_cleanup 3 instant_client 1 "10KB" 5 _ _ _ _ _ Hprep _).
  apply returned_Raise. vm_compute. reflexivity.
Defined.

(** ** What lies outside the fixture *)

Lemma below_ne (d : string) (p q : path) : ~ [d] `prefix_of` q -> d :: p <> q.
Proof. intros Hq <-. apply Hq. exists p. reflexivity. Qed.

Lemma touches_ret (d : string) {A : Type} (a : A) : touches_only_below d (mret a).
Proof. intros s a' s' H. injection H as _ <-. reflexivity. Qed.

Lemma touches_bind (d : string) {A B : Type} (m : M A) (k : A -> M B) :
  touches_only_below d m -> (forall a, touches_only_below d (k a)) ->
  touches_only_below d (m ≫= k).
Proof.
  intros Hm Hk s b s' H q Hq.
  apply bind_Done_inv in H as (a & s1 & H1 & H2).
  rewrite (Hk _ _ _ _ H2 q Hq). exact (Hm _ _ _ H1 q Hq).
Qed.

Lemma touches_mkdir (d : string) (p : path) :
  touches_only_below d (mkdir_exist_ok (d :: p)).
Proof.
  intros s a s' H q Hq. unfold mkdir_exist_ok in H.
  destruct (fs s !! (d :: p)) as [[|x]|]; simplify_eq; [reflexivity|].
  unfold set_fs; simpl. apply lookup_insert_ne, below_ne, Hq.
Qed.

Lemma touches_makedirs (d c : string) : touches_only_below d (makedirs [d; c]).
Proof.
  unfold makedirs. simpl.
  repeat first [apply (touches_mkdir d []) | apply (touches_mkdir d [c])
               | apply touches_ret | apply touches_bind; [|intros ?]].
Qed.

Lemma touches_open_w (d : string) (p : path) :
  touches_only_below d (open_w (d :: p)).
Proof.
  intros s a s' H q Hq. unfold open_w in H.
  destruct (match removelast (d :: p) with [] => true | _ => _ end);
    [|discriminate].
  destruct (fs s !! (d :: p)) as [[|x]|]; simplify_eq;
    unfold set_fs; simpl; apply lookup_insert_ne, below_ne, Hq.
Qed.

Lemma touches_f_write (d : string) (p : path) (data : list byte) :
  touches_only_below d (f_write (d :: p) data).
Proof.
  intros s a s' H q Hq. unfold f_write, modify in H. simplify_eq.
  unfold set_fs; simpl. apply lookup_alter_ne, below_ne, Hq.
Qed.

Lemma touches_f_write_text (d : string) (p : path) (t : text) :
  touches_only_below d (f_write_text (d :: p) t).
Proof.
  unfold f_write_text. destruct (encode_utf8 t) as [data|].
  - apply touches_f_write.
  - intros s a s' H. discriminate H.
Qed.

Lemma touches_urandom (d : string) (env : Env) (n : Z) :
  touches_only_below d (urandom env n).
Proof.
  intros s a s' H q Hq. unfold urandom in H.
  destruct ((n <? - 2 ^ 63) || (2 ^ 63 - 34 <? n)); [discriminate|].
  destruct (n <? 0); simplify_eq. reflexivity.
Qed.

Lemma touches_read_text (d : string) (p : path) : touches_only_below d (read_text p).
Proof.
  intros s a s' H q Hq. unfold read_text in H.
  destruct (fs s !! p) as [[|x]|]; try discriminate.
  destruct (decode_utf8 x); simplify_eq. reflexivity.
Qed.

Lemma touches_remove_stale (kb : Z) :
  touches_only_below (test_dir kb) (remove_stale kb).
Proof.
  intros s a s' H q Hq. unfold remove_stale in H.
  apply bind_Done_inv in H as (e & s1 & H1 & H2).
  injection H1 as _ <-. destruct e; [|unfold mret, M_ret in H2; simplify_eq; reflexivity].
  unfold rmtree in H2. case_lookup H2; simplify_eq.
  unfold set_fs; simpl. apply cleared_elsewhere, Hq.
Qed.

Lemma touches_provision (env : Env) (kb : Z) :
  touches_only_below (test_dir kb) (provision env kb).
Proof.
  unfold provision, write_fixture, payload_path.
  apply touches_bind; [apply touches_remove_stale|intros _].
  repeat first
    [ apply touches_makedirs | apply touches_open_w | apply touches_f_write
    | apply touches_f_write_text | apply touches_urandom | apply touches_read_text
    | apply touches_bind; [|intros ?] ].
Qed.

(** The file system after a return of [run_test]: the provisioned one, or
    the provisioned one without the fixture. *)
Lemma run_test_fs (fuel : nat) (env : Env) (kb : Z) (limit : string)
    (expected : Z) (s s' : St) (b : bool) :
  run_test fuel env kb limit expected s = Done b s' ->
  exists sp, provision env kb (say (header kb limit) s) = Done tt sp /\
    (fs s' = fs sp \/ fs s' = cleared (test_dir kb) (fs sp)).
Proof.
  unfold run_test. intros H.
  apply bind_Done_inv in H as (o & s1 & Hprep & H).
  apply prepare_state in Hprep
    as (sp & pe & pc & pw & Hp & F1 & _ & _ & _ & [[-> _]|[-> _]]);
    exists sp; (split; [exact Hp|]).
  - injection H as _ <-. auto.
  - apply bind_Done_inv in H as ([start end_transfer] & s2 & Hawait & H).
    apply await_transfer_frame in Hawait as [F2 _].
    rewrite <- F1, <- F2. destruct start as [start|].
    + rewrite conclude_run in H. cbv zeta in H.
      destruct (float_of_int kb); [|discriminate].
      destruct (float_is_zero _); [discriminate|].
      destruct (fits_str expected); [|discriminate].
      destruct (fs s2 !! [test_dir kb]) as [[|?]|]; try discriminate.
      destruct (float_of_int expected); [|discriminate].
      destruct (float_ge _ _); injection H as _ <-; right; reflexivity.
    + injection H as _ <-. left. reflexivity.
Qed.

(** X5.  Whatever the outcome it returns with, [run_test] leaves every
    file and directory outside its own fixture directory as it found it. *)
Theorem run_test_keeps_the_rest (fuel : nat) (env : Env) (kb : Z)
    (limit : string) (expected : Z) (s s' : St) (b : bool) :
  run_test fuel env kb limit expected s = Done b s' ->
  forall q, ~ [test_dir kb] `prefix_of` q -> fs s' !! q = fs s !! q.
Proof.
  intros H q Hq. apply run_test_fs in H as (sp & Hp & [-> | ->]).
  - exact (touches_provision _ _ _ _ _ Hp q Hq).
  - rewrite cleared_elsewhere by exact Hq.
    exact (touches_provision _ _ _ _ _ Hp q Hq).
Qed.

Lemma run_test_keeps_the_rest_witness :
  fs (final (run_test 3 silent_client 1 "10KB" 5 (boot sample_fs))) !! template_path
    = sample_fs !! template_path.
Proof.
  ran H (run_test 3 silent_client 1 "10KB" 5 (boot sample_fs)) false.
  apply (run_test_keeps_the_rest _ _ _ _ _ _ _ _ H).
  intros [q Hq]. exact (below_ne_template 1 q (eq_sym Hq)).
Defined.

(** X3.  A test that reaches its verdict, passed or failed, leaves the file
    system as it found it, less whatever stood at or below the fixture's
    name before; with no such leftover, exactly as it found it. *)
Theorem verdict_restores_the_file_system (fuel : nat) (env : Env) (kb : Z)
    (limit : string) (expected : Z) (s s1 s2 s' : St) (ep client : nat)
    (start end_transfer : float) (b : bool) :
  prepare env kb limit s = Done (Some (ep, client)) s1 ->
  await_transfer fuel env s1 = Done (Some start, end_transfer) s2 ->
  run_test fuel env kb limit expected s = Done b s' ->
  fs s' = cleared (test_dir kb) (fs s) /\
  (wf_fs (fs s) -> fs s !! [test_dir kb] = None -> fs s' = fs s).
Proof.
  intros Hprep Hawait H.
  assert (fs s' = cleared (test_dir kb) (fs s)) as E.
  { apply map_eq. intros q.
    destruct (decide ([test_dir kb] `prefix_of` q)) as [[p ->]|Hq].
    - simpl. rewrite cleared_below.
      exact (verdict_removes_fixture _ _ _ _ _ _ _ _ _ _ _ _ _ _ Hprep Hawait H p).
    - rewrite cleared_elsewhere by exact Hq.
      apply run_test_fs in H as (sp & Hp & [-> | ->]).
      + exact (touches_provision _ _ _ _ _ Hp q Hq).
      + rewrite cleared_elsewhere by exact Hq.
        exact (touches_provision _ _ _ _ _ Hp q Hq). }
  split; [exact E|].
  intros Hwf Hnone. rewrite E. apply cleared_absent; assumption.
Qed.

Lemma verdict_restores_the_file_system_witness :
  fs (final (run_test 3 unthrottled_client 1 "10KB" 5 (boot sample_fs))) = sample_fs.
Proof.
  ran Hprep (prepare unthrottled_client 1 "10KB" (boot sample_fs))
    (Some (0%nat, 1%nat)).
  ran Hawait (await_transfer 3 unthrottled_client
                (final (prepare unthrottled_client 1 "10KB" (boot sample_fs))))
    (Some 103%float, 104%float).
  ran H (run_test 3 unthrottled_client 1 "10KB" 5 (boot sample_fs)) false.
  apply (verdict_restores_the_file_system _ _ _ _ _ _ _ _ _ _ _ _ _ _ Hprep Hawait H).
  - apply wf_fsb_wf_fs. vm_compute. reflexivity.
  - vm_compute. reflexivity.
Defined.

(** ** Fixture errors *)

Lemma read_text_missing (p : path) (s : St) :
  (forall x, fs s !! p <> Some (File x)) -> read_text p s = Raise OSError s.
Proof.
  unfold read_text. intros H.
  destruct (fs s !! p) as [[|x]|]; try reflexivity. destruct (H x). reflexivity.
Qed.

Lemma urandom_negative (env : Env) (kb : Z) (s : St) :
  - 2 ^ 53 <= kb < 0 -> urandom env (kb * 1024) s = Raise ValueError s.
Proof.
  intros Hn. unfold urandom. rewrite kb_in_range by lia.
  destruct (kb * 1024 <? 0) eqn:E; [reflexivity|lia].
Qed.

(** An exception of [provision] is an exception of [run_test]. *)
Lemma provision_raise (fuel : nat) (env : Env) (kb : Z) (limit : string)
    (expected : Z) (s s' : St) (e : exn) :
  provision env kb (say (header kb limit) s) = Raise e s' ->
  run_test fuel env kb limit expected s = Raise e s'.
Proof.
  intros H. unfold run_test, prepare.
  rewrite !bind_unfold. unfold print at 1, modify at 1. cbv beta iota.
  rewrite !bind_unfold, H. reflexivity.
Qed.

Lemma write_fixture_negative (env : Env) (kb : Z) (s : St) :
  - 2 ^ 53 <= kb < 0 ->
  (forall p, fs s !! (test_dir kb :: p) = None) ->
  exists s', write_fixture env kb s = Raise ValueError s' /\
    fs s' = <[ payload_path kb := File [] ]>
              (<[ [test_dir kb; "users"] := Dir ]>
              (<[ [test_dir kb; "room_files"] := Dir ]>
              (<[ [test_dir kb] := Dir ]> (fs s)))) /\
    io s' = io s.
Proof.
  intros Hkb Hfree.
  destruct s as [F P O ke kp kw kr krl kt]. simpl in Hfree. flat.
  unfold write_fixture, makedirs, payload_path. simpl makedirs_from.
  rewrite bind_unfold. fwd mkdir_new. fwd mkdir_new.
  unfold mret at 1, M_ret at 1. cbv beta iota.
  rewrite bind_unfold. fwd mkdir_old. fwd mkdir_new.
  unfold mret at 1, M_ret at 1. cbv beta iota.
  fwd open_w_new.
  rewrite bind_unfold, urandom_negative by exact Hkb.
  eexists. split; [reflexivity|]. split; reflexivity.
Qed.

Lemma write_fixture_no_key (env : Env) (kb : Z) (s : St) :
  0 <= kb < 2 ^ 53 ->
  (forall p, fs s !! (test_dir kb :: p) = None) ->
  (forall x, fs s !! template_path <> Some (File x)) ->
  exists s', write_fixture env kb s = Raise OSError s' /\
    fs s' = <[ payload_path kb :=
                 File (map (entropy env) (seq (k_entropy s) (Z.to_nat (kb * 1024)))) ]>
              (<[ [test_dir kb; "users"] := Dir ]>
              (<[ [test_dir kb; "room_files"] := Dir ]>
              (<[ [test_dir kb] := Dir ]> (fs s)))) /\
    io s' = io s.
Proof.
  intros Hkb Hfree Hkey.
  destruct s as [F P O ke kp kw kr krl kt]. simpl in Hfree, Hkey. flat.
  unfold write_fixture, makedirs, payload_path. simpl makedirs_from.
  rewrite bind_unfold. fwd mkdir_new. fwd mkdir_new.
  unfold mret at 1, M_ret at 1. cbv beta iota.
  rewrite bind_unfold. fwd mkdir_old. fwd mkdir_new.
  unfold mret at 1, M_ret at 1. cbv beta iota.
  fwd open_w_new.
  fwd urandom_run.
  rewrite bind_unfold. unfold f_write at 1, modify at 1. cbv beta iota. flat.
  rewrite bind_unfold, read_text_missing.
  - eexists. split; [reflexivity|]. split; [|reflexivity]. flat.
    rewrite alter_insert_eq. reflexivity.
  - intros x. fs_look.
Qed.

(** X9.  For a negative size, down to -2^53 KB (below which the number of
    bytes does not fit a [Py_ssize_t]), [os.urandom] raises [ValueError]:
    [run_test] stops there, with no process started, the fixture directory
    made and the payload file created and empty. *)
Theorem negative_size_raises (fuel : nat) (env : Env) (kb : Z) (limit : string)
    (expected : Z) (s : St) :
  wf_fs (fs s) ->
  (forall x, fs s !! [test_dir kb] <> Some (File x)) ->
  - 2 ^ 53 <= kb < 0 ->
  exists s', run_test fuel env kb limit expected s = Raise ValueError s' /\
    procs s' = procs s /\
    fs s' !! [test_dir kb] = Some Dir /\
    fs s' !! payload_path kb = Some (File []) /\
    fs s' !! [test_dir kb; "users"; "maurits"] = None.
Proof.
  intros Hwf Hnofile Hkb.
  destruct (remove_stale_run kb (say (header kb limit) s) Hwf Hnofile)
    as (s1 & H1 & F1 & I1 & _).
  destruct (write_fixture_negative env kb s1 Hkb) as (s' & H2 & F2 & I2).
  { intros p. rewrite F1. apply cleared_below. }
  exists s'. split.
  { apply provision_raise. unfold provision.
    rewrite (bind_Done _ _ _ _ _ H1). exact H2. }
  unfold io in I1, I2. injection I1 as P1 _ _ _ _ _ _. injection I2 as P2 _ _ _ _ _ _.
  split; [congruence|]. rewrite F2, F1. unfold payload_path.
  repeat split; fs_look. apply cleared_below.
Qed.

Lemma negative_size_raises_witness :
  exists s', run_test 3 steady_client (-1) "10KB" 5 (boot sample_fs)
               = Raise ValueError s' /\
    procs s' = [] /\
    fs s' !! [test_dir (-1)] = Some Dir /\
    fs s' !! payload_path (-1) = Some (File []) /\
    fs s' !! [test_dir (-1); "users"; "maurits"] = None.
Proof.
  apply (negative_size_raises 3 steady_client (-1) "10KB" 5 (boot sample_fs)).
  - apply wf_fsb_wf_fs. vm_compute. reflexivity.
  - intros x. vm_compute. discriminate.
  - split; [discriminate|reflexivity].
Defined.

(** X10.  Without the template key, [run_test], for a size from 0 to below
    2^53 KB, raises [OSError] at the key's [open]: no process is started; the
    payload is already written, in full, and no credential file is. *)
Theorem missing_key_raises (fuel : nat) (env : Env) (kb : Z) (limit : string)
    (expected : Z) (s : St) :
  wf_fs (fs s) ->
  (forall x, fs s !! [test_dir kb] <> Some (File x)) ->
  0 <= kb < 2 ^ 53 ->
  (forall x, fs s !! template_path <> Some (File x)) ->
  exists s' data, run_test fuel env kb limit expected s = Raise OSError s' /\
    procs s' = procs s /\
    fs s' !! payload_path kb = Some (File data) /\
    Z.of_nat (length data) = kb * 1024 /\
    fs s' !! [test_dir kb; "users"; "maurits"] = None /\
    fs s' !! [test_dir kb; "users"; "myroom"] = None.
Proof.
  intros Hwf Hnofile Hkb Hkey.
  destruct (remove_stale_run kb (say (header kb limit) s) Hwf Hnofile)
    as (s1 & H1 & F1 & I1 & _).
  destruct (write_fixture_no_key env kb s1 Hkb) as (s' & H2 & F2 & I2).
  { intros p. rewrite F1. apply cleared_below. }
  { intros x. rewrite F1, cleared_elsewhere; [apply Hkey|].
    intros [q Hq]. exact (below_ne_template kb q (eq_sym Hq)). }
  exists s', (map (entropy env) (seq (k_entropy s1) (Z.to_nat (kb * 1024)))).
  split.
  { apply provision_raise. unfold provision.
    rewrite (bind_Done _ _ _ _ _ H1). exact H2. }
  unfold io in I1, I2. injection I1 as P1 _ _ _ _ _ _. injection I2 as P2 _ _ _ _ _ _.
  split; [congruence|]. rewrite F2, F1. unfold payload_path.
  repeat split; fs_look; try apply cleared_below.
  rewrite length_map, length_seq. lia.
Qed.

Lemma missing_key_raises_witness :
  exists s' data, run_test 3 steady_client 2 "10KB" 5 (boot ∅) = Raise OSError s' /\
    procs s' = [] /\
    fs s' !! payload_path 2 = Some (File data) /\
    Z.of_nat (length data) = 2 * 1024 /\
    fs s' !! [test_dir 2; "users"; "maurits"] = None /\
    fs s' !! [test_dir 2; "users"; "myroom"] = None.
Proof.
  apply (missing_key_raises 3 steady_client 2 "10KB" 5 (boot ∅)).
  - intros p c _ [x Hx]. simpl in Hx. rewrite lookup_empty in Hx. discriminate.
  - intros x. simpl. rewrite lookup_empty. discriminate.
  - split; [lia|reflexivity].
  - intros x. simpl. rewrite lookup_empty. discriminate.
Defined.

(** The fixture directory with the payload file created and still empty:
    where [write_fixture] stands when [os.urandom] is called. *)
Lemma write_fixture_out_of_range (env : Env) (kb : Z) (s : St) :
  kb < - 2 ^ 53 \/ 2 ^ 53 <= kb ->
  (forall p, fs s !! (test_dir kb :: p) = None) ->
  exists s', write_fixture env kb s = Raise OverflowError s' /\
    fs s' = <[ payload_path kb := File [] ]>
              (<[ [test_dir kb; "users"] := Dir ]>
              (<[ [test_dir kb; "room_files"] := Dir ]>
              (<[ [test_dir kb] := Dir ]> (fs s)))) /\
    io s' = io s.
Proof.
  intros Hkb Hfree.
  destruct s as [F P O ke kp kw kr krl kt]. simpl in Hfree. flat.
  unfold write_fixture, makedirs, payload_path. simpl makedirs_from.
  rewrite bind_unfold. fwd mkdir_new. fwd mkdir_new.
  unfold mret at 1, M_ret at 1. cbv beta iota.
  rewrite bind_unfold. fwd mkdir_old. fwd mkdir_new.
  unfold mret at 1, M_ret at 1. cbv beta iota.
  fwd open_w_new.
  rewrite bind_unfold. unfold urandom at 1.
  assert ((kb * 1024 <? - 2 ^ 63) || (2 ^ 63 - 34 <? kb * 1024) = true) as ->.
  { revert Hkb. change (2 ^ 53) with 9007199254740992.
    change (2 ^ 63) with 9223372036854775808. lia. }
  eexists. split; [reflexivity|]. split; reflexivity.
Qed.

(** X16.  A size of 2^53 KB or more, or below -2^53 KB, is more than
    [os.urandom] takes: [run_test] raises [OverflowError] there, with no
    process started, the fixture directory made and the payload file
    created and empty.  (The size is below 2^63 in absolute value: the header
    line and the names of the fixture have a few digits.) *)
Theorem oversized_payload_raises (fuel : nat) (env : Env) (kb : Z) (limit : string)
    (expected : Z) (s : St) :
  wf_fs (fs s) ->
  (forall x, fs s !! [test_dir kb] <> Some (File x)) ->
  kb < - 2 ^ 53 \/ 2 ^ 53 <= kb ->
  Z.abs kb < 2 ^ 63 ->
  exists s', run_test fuel env kb limit expected s = Raise OverflowError s' /\
    procs s' = procs s /\
    fs s' !! [test_dir kb] = Some Dir /\
    fs s' !! payload_path kb = Some (File []) /\
    fs s' !! [test_dir kb; "users"; "maurits"] = None.
Proof.
  intros Hwf Hnofile Hkb _.
  destruct (remove_stale_run kb (say (header kb limit) s) Hwf Hnofile)
    as (s1 & H1 & F1 & I1 & _).
  destruct (write_fixture_out_of_range env kb s1 Hkb) as (s' & H2 & F2 & I2).
  { intros p. rewrite F1. apply cleared_below. }
  exists s'. split.
  { apply provision_raise. unfold provision.
    rewrite (bind_Done _ _ _ _ _ H1). exact H2. }
  unfold io in I1, I2. injection I1 as P1 _ _ _ _ _ _. injection I2 as P2 _ _ _ _ _ _.
  split; [congruence|]. rewrite F2, F1. unfold payload_path.
  repeat split; fs_look. apply cleared_below.
Qed.

Lemma oversized_payload_raises_witness :
  exists s', run_test 3 steady_client (2 ^ 53) "10KB" 5 (boot sample_fs)
               = Raise OverflowError s' /\
    procs s' = [] /\
    fs s' !! [test_dir (2 ^ 53)] = Some Dir /\
    fs s' !! payload_path (2 ^ 53) = Some (File []) /\
    fs s' !! [test_dir (2 ^ 53); "users"; "maurits"] = None.
Proof.
  apply (oversized_payload_raises 3 steady_client (2 ^ 53) "10KB" 5 (boot sample_fs)).
  - apply wf_fsb_wf_fs. vm_compute. reflexivity.
  - intros x. vm_compute. discriminate.
  - right. discriminate.
  - vm_compute. reflexivity.
Defined.

Lemma read_text_undecodable (p : path) (d : list byte) (s : St) :
  fs s !! p = Some (File d) -> decode_utf8 d = None ->
  read_text p s = Raise UnicodeError s.
Proof. unfold read_text. intros -> ->. reflexivity. Qed.

Lemma write_fixture_bad_key (env : Env) (kb : Z) (key : list byte) (s : St) :
  0 <= kb < 2 ^ 53 ->
  (forall p, fs s !! (test_dir kb :: p) = None) ->
  fs s !! template_path = Some (File key) ->
  decode_utf8 key = None ->
  exists s', write_fixture env kb s = Raise UnicodeError s' /\
    fs s' = <[ payload_path kb :=
                 File (map (entropy env) (seq (k_entropy s) (Z.to_nat (kb * 1024)))) ]>
              (<[ [test_dir kb; "users"] := Dir ]>
              (<[ [test_dir kb; "room_files"] := Dir ]>
              (<[ [test_dir kb] := Dir ]> (fs s)))) /\
    io s' = io s.
Proof.
  intros Hkb Hfree Hkey Hdec.
  destruct s as [F P O ke kp kw kr krl kt]. simpl in Hfree, Hkey. flat.
  unfold write_fixture, makedirs, payload_path. simpl makedirs_from.
  rewrite bind_unfold. fwd mkdir_new. fwd mkdir_new.
  unfold mret at 1, M_ret at 1. cbv beta iota.
  rewrite bind_unfold. fwd mkdir_old. fwd mkdir_new.
  unfold mret at 1, M_ret at 1. cbv beta iota.
  fwd open_w_new.
  fwd urandom_run.
  rewrite bind_unfold. unfold f_write at 1, modify at 1. cbv beta iota. flat.
  rewrite bind_unfold, (read_text_undecodable template_path key).
  - eexists. split; [reflexivity|]. split; [|reflexivity]. flat.
    rewrite alter_insert_eq. reflexivity.
  - fs_look.
  - exact Hdec.
Qed.

(** X17.  When the template key is not UTF-8, [run_test], for a size from 0
    to below 2^53 KB, raises [UnicodeDecodeError] at the key's [read]: no
    process is started; the payload is already written, in full, and no
    credential file is. *)
Theorem undecodable_key_raises (fuel : nat) (env : Env) (kb : Z) (limit : string)
    (expected : Z) (key : list byte) (s : St) :
  wf_fs (fs s) ->
  (forall x, fs s !! [test_dir kb] <> Some (File x)) ->
  0 <= kb < 2 ^ 53 ->
  fs s !! template_path = Some (File key) ->
  decode_utf8 key = None ->
  exists s' data, run_test fuel env kb limit expected s = Raise UnicodeError s' /\
    procs s' = procs s /\
    fs s' !! payload_path kb = Some (File data) /\
    Z.of_nat (length data) = kb * 1024 /\
    fs s' !! [test_dir kb; "users"; "maurits"] = None /\
    fs s' !! [test_dir kb; "users"; "myroom"] = None.
Proof.
  intros Hwf Hnofile Hkb Hkey Hdec.
  destruct (remove_stale_run kb (say (header kb limit) s) Hwf Hnofile)
    as (s1 & H1 & F1 & I1 & _).
  destruct (write_fixture_bad_key env kb key s1 Hkb) as (s' & H2 & F2 & I2).
  { intros p. rewrite F1. apply cleared_below. }
  { rewrite F1, cleared_elsewhere; [exact Hkey|].
    intros [q Hq]. exact (below_ne_template kb q (eq_sym Hq)). }
  { exact Hdec. }
  exists s', (map (entropy env) (seq (k_entropy s1) (Z.to_nat (kb * 1024)))).
  split.
  { apply provision_raise. unfold provision.
    rewrite (bind_Done _ _ _ _ _ H1). exact H2. }
  unfold io in I1, I2. injection I1 as P1 _ _ _ _ _ _. injection I2 as P2 _ _ _ _ _ _.
  split; [congruence|]. rewrite F2, F1. unfold payload_path.
  repeat split; fs_look; try apply cleared_below.
  rewrite length_map, length_seq. lia.
Qed.

Lemma undecodable_key_raises_witness :
  exists s' data, run_test 3 steady_client 2 "10KB" 5 (boot latin1_fs)
                    = Raise UnicodeError s' /\
    procs s' = [] /\
    fs s' !! payload_path 2 = Some (File data) /\
    Z.of_nat (length data) = 2 * 1024 /\
    fs s' !! [test_dir 2; "users"; "maurits"] = None /\
    fs s' !! [test_dir 2; "users"; "myroom"] = None.
Proof.
  apply (undecodable_key_raises 3 steady_client 2 "10KB" 5
           (list_byte_of_string "key" ++ [xa0]) (boot latin1_fs)).
  - apply wf_fsb_wf_fs. vm_compute. reflexivity.
  - intros x. vm_compute. discriminate.
  - split; [lia|reflexivity].
  - vm_compute. reflexivity.
  - vm_compute. reflexivity.
Defined.

Lemma abort_leaves_fixture_witness :
  exists s', run_test 3 deaf_client 1 "10KB" 5 (boot sample_fs) = Done false s' /\
    fs s' !! [test_dir 1] = Some Dir.
Proof.
  apply (abort_leaves_fixture 3 deaf_client 1 "10KB" 5 (boot sample_fs)
           (final (prepare deaf_client 1 "10KB" (boot sample_fs)))).
  left. apply returned_Done. vm_compute. reflexivity.
Defined.

Lemma scan_terminates_witness :
  exists r s', scan 8 two_sentinels None (boot sample_fs) = Done r s'.
Proof.
  apply (scan_terminates two_sentinels 5 2 8 None (boot sample_fs)).
  - intros j Hj. simpl in Hj. unfold two_sentinels, script. simpl.
    rewrite lookup_ge_None_2 by (simpl; lia). reflexivity.
  - intros j Hj. simpl in Hj. unfold two_sentinels, script. simpl.
    destruct (decide (j = 2%nat)) as [->|Hne]; [discriminate|].
    rewrite lookup_ge_None_2 by (simpl; lia). discriminate.
  - lia.
Defined.

(** ** What the scan prints *)

Lemma echoes_S (env : Env) (a b : nat) :
  (a < b)%nat ->
  echoes env a (b - a) = echo (readline_results env a) ++ echoes env (S a) (b - S a).
Proof.
  intros Hab. replace (b - a)%nat with (S (b - S a)) by lia. reflexivity.
Qed.

(** X14.  The scan prints every line it reads, in the order read, each as a
    debug line and as raw text, with one more debug line after each that
    holds the sentinel; it ends with the line that tells of the client's
    exit, and prints nothing else. *)
Theorem scan_echoes_every_line (fuel : nat) (env : Env) (start : option float)
    (s : St) (r : option float) (s' : St) :
  scan fuel env start s = Done r s' ->
  out s' = out s ++ echoes env (k_readline s) (k_readline s' - k_readline s)
             ++ [Text "DEBUG: Wrapper process terminated."].
Proof.
  revert start s. induction fuel as [|fuel IH]; intros start s; [discriminate|].
  intros H. pose proof (scan_spec _ _ _ _ _ _ H) as (R & _).
  rewrite scan_S in H. rewrite echoes_S by exact R.
  destruct (readline_results env (k_readline s)) as [|c line] eqn:Eline.
  - destruct (poll_results env (k_poll s)) as [code|].
    + simplify_eq. simpl. rewrite Nat.sub_diag. reflexivity.
    + apply IH in H. simpl in H. exact H.
  - cbv zeta in H. unfold echo.
    destruct (contains sentinel (String c line)); apply IH in H; simpl in H;
      rewrite H, <- !app_assoc; reflexivity.
Qed.

Lemma scan_echoes_every_line_witness :
  out (final (scan 6 two_sentinels None (boot sample_fs)))
    = [ Received ("connected" +:+ nl); Raw ("connected" +:+ nl);
        Received ("UNN DOWNLOAD READY" +:+ nl); Raw ("UNN DOWNLOAD READY" +:+ nl);
        Text "DEBUG: FOUND TRIGGER! Transfer started (Instruction block detected)...";
        Received ("UNN DOWNLOAD READY" +:+ nl); Raw ("UNN DOWNLOAD READY" +:+ nl);
        Text "DEBUG: FOUND TRIGGER! Transfer started (Instruction block detected)...";
        Text "DEBUG: Wrapper process terminated." ].
Proof.
  ran H (scan 6 two_sentinels None (boot sample_fs)) (Some 103%float).
  rewrite (scan_echoes_every_line _ _ _ _ _ _ H). vm_compute. reflexivity.
Defined.

(** ** An expected duration beyond the floats *)

(** X15.  When the expected duration is an integer too large for a float,
    yet of no more than 4300 digits, so that the report line is printed, the
    test has no verdict: [run_test] raises [OverflowError] at the
    comparison, and does so after the cleanup, with the entrypoint and the
    room killed and the fixture removed. *)
Theorem huge_expectation_raises_after_cleanup (fuel : nat) (env : Env) (kb : Z)
    (limit : string) (expected : Z) (s s1 s2 : St) (ep client : nat)
    (start end_transfer speed : float) :
  prepare env kb limit s = Done (Some (ep, client)) s1 ->
  await_transfer fuel env s1 = Done (Some start, end_transfer) s2 ->
  returned (truediv kb (end_transfer - start) s2) = Some speed ->
  float_of_int expected = None ->
  Z.abs expected < 10 ^ max_str_digits ->
  exists s', run_test fuel env kb limit expected s = Raise OverflowError s' /\
    is_killed ep s' /\ is_killed client s' /\
    forall p, fs s' !! (test_dir kb :: p) = None.
Proof.
  intros Hprep Hawait Hspeed Hexp Hfit.
  apply Z.ltb_lt in Hfit. fold (fits_str expected) in Hfit.
  destruct (run_test_measured fuel env kb limit expected _ _ _ _ _ _ _ Hprep Hawait)
    as [-> D].
  rewrite conclude_run. cbv zeta. rewrite D, Hexp, Hfit.
  unfold truediv in Hspeed.
  destruct (float_of_int kb) as [a|]; [|discriminate].
  destruct (float_is_zero (end_transfer - start)); [discriminate|].
  eexists. split; [reflexivity|].
  apply await_transfer_frame in Hawait as [_ P2].
  apply prepare_cases in Hprep as (l & Hlen & _ & [[Ho _]|[Ho Hprocs]]);
    [discriminate|].
  injection Ho as -> ->.
  destruct (both_killed (length (procs s)) l
              (set_fs (filter (fun kv => ~ [test_dir kb] `prefix_of` kv.1))
                 (mark_killed (S (length (procs s)))
                    (mark_killed (length (procs s))
                       (say (Speed (a / (end_transfer - start)))
                          (say (Took (end_transfer - start) expected) s2))))))
    as [K1 K2]; [exact Hlen| |].
  { simpl. rewrite P2, Hprocs. reflexivity. }
  repeat split; [exact K1|exact K2|]. intros p. apply cleared_below.
Qed.

Lemma huge_expectation_raises_after_cleanup_witness :
  exists s', run_test 3 steady_client 1 "10KB" (10 ^ 400) (boot sample_fs)
               = Raise OverflowError s' /\
    is_killed 0 s' /\ is_killed 1 s' /\
    forall p, fs s' !! (test_dir 1 :: p) = None.
Proof.
  ran Hprep (prepare steady_client 1 "10KB" (boot sample_fs)) (Some (0%nat, 1%nat)).
  ran Hawait (await_transfer 3 steady_client
                (final (prepare steady_client 1 "10KB" (boot sample_fs))))
    (Some 103%float, 110%float).
  refine (huge_expectation_raises_after_cleanup 3 steady_client 1 "10KB" (10 ^ 400)
            _ _ _ _ _ _ _ (1 / (110 - 103))%float Hprep Hawait _ _ _);
    vm_compute; reflexivity.
Defined.

(** X18.  When the expected duration has more than 4300 digits, the report
    line cannot be built: [run_test] raises [ValueError] at line 100, before
    the cleanup; nothing of the report is printed, neither role process is
    killed and the fixture is not removed: the state is the one the scan
    left. *)
Theorem overlong_expectation_raises_before_cleanup (fuel : nat) (env : Env)
    (kb : Z) (limit : string) (expected : Z) (s s1 s2 : St) (ep client : nat)
    (start end_transfer speed : float) :
  prepare env kb limit s = Done (Some (ep, client)) s1 ->
  await_transfer fuel env s1 = Done (Some start, end_transfer) s2 ->
  returned (truediv kb (end_transfer - start) s2) = Some speed ->
  10 ^ max_str_digits <= Z.abs expected ->
  run_test fuel env kb limit expected s = Raise ValueError s2 /\
  killed <$> procs s2 !! ep = Some false /\
  killed <$> procs s2 !! client = Some false /\
  fs s2 !! [test_dir kb] = Some Dir.
Proof.
  intros Hprep Hawait Hspeed Hfit.
  apply Z.ltb_ge in Hfit. fold (fits_str expected) in Hfit.
  destruct (run_test_measured fuel env kb limit expected _ _ _ _ _ _ _ Hprep Hawait)
    as [-> D].
  rewrite conclude_run. cbv zeta. rewrite Hfit.
  unfold truediv in Hspeed.
  destruct (float_of_int kb) as [a|]; [|discriminate].
  destruct (float_is_zero (end_transfer - start)); [discriminate|].
  split; [reflexivity|].
  apply await_transfer_frame in Hawait as [_ P2].
  apply prepare_state in Hprep
    as (sp & pe & pc & pw & _ & _ & K1 & K2 & K3 & [[Ho _]|[Ho Hprocs]]);
    [discriminate|].
  injection Ho as -> ->.
  rewrite P2, Hprocs. repeat split; [| |exact D].
  - rewrite lookup_app_r by lia. rewrite Nat.sub_diag. simpl. congruence.
  - rewrite lookup_app_r by lia.
    replace (S (length (procs s)) - length (procs s))%nat with 1%nat by lia.
    simpl. congruence.
Qed.

Lemma overlong_expectation_raises_before_cleanup_witness :
  exists s2, run_test 3 steady_client 1 "10KB" (10 ^ 4300) (boot sample_fs)
               = Raise ValueError s2 /\
    killed <$> procs s2 !! 0%nat = Some false /\
    killed <$> procs s2 !! 1%nat = Some false /\
    fs s2 !! [test_dir 1] = Some Dir.
Proof.
  ran Hprep (prepare steady_client 1 "10KB" (boot sample_fs)) (Some (0%nat, 1%nat)).
  ran Hawait (await_transfer 3 steady_client
                (final (prepare steady_client 1 "10KB" (boot sample_fs))))
    (Some 103%float, 110%float).
  eexists.
  refine (overlong_expectation_raises_before_cleanup 3 steady_client 1 "10KB"
            (10 ^ 4300) _ _ _ _ _ _ _ (1 / (110 - 103))%float Hprep Hawait _ _).
  - vm_compute. reflexivity.
  - vm_compute. discriminate.
Defined.
